(** * The example tools of [fastmcp_python_basic/server.py]

    A shallow embedding of the four tools registered by the example server
    ([calculator], [list_files], [system_info], [echo]) and the properties of
    their request/response contract.

    - Python values are the inductive [pyval]; a [dict] is a finite map from
      its (literal) keys to values.  A Python [str] is modelled by a Rocq
      [string], one [ascii] standing for one character.
    - A Python [float] is an IEEE-754 binary64 number: [spec_float] with
      precision 53 and maximal exponent 1024.
    - Everything the tools read from outside (the file system as seen through
      [pathlib], the process environment, the clock) is a field of [World];
      each library call either returns or raises, and leaves a mark in the
      trace of the computation.
    - [try: ... except Exception as e: ...] is [try_except].  Only exceptions
      deriving from [Exception] are modelled: the asynchronous ones
      ([KeyboardInterrupt] and the like) are outside the model. *)

From Stdlib Require Import ZArith String Ascii List Lia.
From Stdlib Require Import Floats.SpecFloat.
From stdpp Require Import base option gmap strings list fin_maps.

Set Warnings "-register-all".
Local Open Scope string_scope.
Local Open Scope Z_scope.

(** ** Python values *)

Inductive pyval : Type :=
| PyStr (s : string)
| PyInt (z : Z)
| PyFloat (f : spec_float)
| PyBool (b : bool)
| PyList (l : list pyval)
| PyDict (d : gmap string pyval).

(** A dict display [{k1: v1, ..., kn: vn}]. *)
Definition dict (items : list (string * pyval)) : gmap string pyval :=
  list_to_map items.

(** [k in d] *)
Definition has_key (k : string) (d : gmap string pyval) : bool :=
  bool_decide (is_Some (d !! k)).

(** ** Python floats: IEEE-754 binary64 *)

Module Float.
Definition prec : Z := 53.
Definition emax : Z := 1024.

(** [float(z)] for an integer literal. *)
Definition of_Z (z : Z) : spec_float := binary_normalize prec emax z 0 false.

Definition add : spec_float → spec_float → spec_float := SFadd prec emax.
Definition sub : spec_float → spec_float → spec_float := SFsub prec emax.
Definition mul : spec_float → spec_float → spec_float := SFmul prec emax.
Definition div : spec_float → spec_float → spec_float := SFdiv prec emax.

(** [x == y]: false as soon as one side is a NaN; the two zeros are equal. *)
Definition eqb : spec_float → spec_float → bool := SFeqb.
End Float.

(** ** Exceptions, results and the trace of library calls *)

(** An exception object: its class and what [str(e)] gives. *)
Record pyexn : Type := PyExn { exn_class : string; exn_str : string }.

Inductive result (A : Type) : Type :=
| Return (v : A)
| Raise (e : pyexn).
Arguments Return {A} v.
Arguments Raise {A} e.

(** The calls a tool makes to the outside. *)
Inductive syscall : Type :=
| SysExists (path : string)
| SysIsDir (path : string)
| SysIsFile (path : string)
| SysGlob (dir pat : string)
| SysStat (path : string)
| SysFromTimestamp (t : spec_float)
| SysEnviron
| SysGetcwd
| SysNow.

(** A computation: the calls it made, in order, and how it ended. *)
Record py (A : Type) : Type := Run { trace : list syscall; outcome : result A }.
Arguments Run {A} trace outcome.
Arguments trace {A} _.
Arguments outcome {A} _.

Global Instance py_ret : MRet py := λ A v, Run [] (Return v).

Global Instance py_bind : MBind py := λ A B f m,
  match outcome m with
  | Return v => Run (trace m ++ trace (f v)) (outcome (f v))
  | Raise e => Run (trace m) (Raise e)
  end.

Global Instance py_fmap : FMap py := λ A B f m, v ← m; mret (f v).

(** [raise e] *)
Definition raise {A : Type} (e : pyexn) : py A := Run [] (Raise e).

(** One call to the outside, with its answer. *)
Definition call {A : Type} (c : syscall) (r : result A) : py A := Run [c] r.

(** [try: body  except Exception as e: handler e] *)
Definition try_except {A : Type} (body : py A) (handler : pyexn → py A) : py A :=
  match outcome body with
  | Return _ => body
  | Raise e => Run (trace body ++ trace (handler e)) (outcome (handler e))
  end.

(** [x / y] on floats raises [ZeroDivisionError] for a zero divisor. *)
Definition float_truediv (x y : spec_float) : py spec_float :=
  if Float.eqb y (Float.of_Z 0)
  then raise (PyExn "ZeroDivisionError" "float division by zero")
  else mret (Float.div x y).

(** ** The request and response models *)

Record CalculationRequest : Type :=
  { operation : string; a : spec_float; b : spec_float }.

Record FileListRequest : Type :=
  { directory : string; pattern : string }.

Record SystemInfoResponse : Type :=
  { timestamp : string;
    python_version : string;
    platform : string;
    working_directory : string;
    environment_variables : gmap string string }.

(** ** calculator *)

Definition supported_operations : list string :=
  ["add"; "subtract"; "multiply"; "divide"].

(** [{"a": request.a, "b": request.b}] *)
Definition inputs_of (request : CalculationRequest) : pyval :=
  PyDict (dict [("a", PyFloat (a request)); ("b", PyFloat (b request))]).

(** The final [return] of the [try] block, reached with [result] assigned
    by one of the four branches (the initial [result = 0.0] is always
    overwritten before it is read). *)
Definition calculator_return (request : CalculationRequest) (result : spec_float)
  : py (gmap string pyval) :=
  mret (dict [("result", PyFloat result);
              ("operation", PyStr (operation request));
              ("inputs", inputs_of request)]).

Definition calculator_try (request : CalculationRequest) : py (gmap string pyval) :=
  if String.eqb (operation request) "add" then
    calculator_return request (Float.add (a request) (b request))
  else if String.eqb (operation request) "subtract" then
    calculator_return request (Float.sub (a request) (b request))
  else if String.eqb (operation request) "multiply" then
    calculator_return request (Float.mul (a request) (b request))
  else if String.eqb (operation request) "divide" then
    if Float.eqb (b request) (Float.of_Z 0) then
      mret (dict [("error", PyStr "Division by zero is not allowed");
                  ("operation", PyStr (operation request));
                  ("inputs", inputs_of request)])
    else
      result ← float_truediv (a request) (b request);
      calculator_return request result
  else
    mret (dict [("error", PyStr ("Unknown operation: " +:+ operation request));
                ("supported_operations", PyList (PyStr <$> supported_operations))]).

Definition calculator (request : CalculationRequest) : py (gmap string pyval) :=
  try_except (calculator_try request)
    (λ e, mret (dict [("error", PyStr ("Calculation error: " +:+ exn_str e));
                      ("operation", PyStr (operation request));
                      ("inputs", inputs_of request)])).

(** ** The outside world *)

(** [os.stat_result], the two fields the server reads. *)
Record stat_result : Type := { st_size : Z; st_mtime : spec_float }.

(** A naive [datetime] (no time zone attached). *)
Record datetime : Type :=
  { year : Z; month : Z; day : Z;
    hour : Z; minute : Z; second : Z; microsecond : Z }.

(** The file system as [pathlib] shows it.  A [Path] is identified with its
    [str]; [fs_glob dir pat] is what iterating [Path(dir).glob(pat)] yields. *)
Record FileSystem : Type :=
  { fs_exists : string → result bool;
    fs_is_dir : string → result bool;
    fs_is_file : string → result bool;
    fs_glob : string → string → result (list string);
    fs_stat : string → result stat_result }.

(** The process environment: [os.environ], the working directory, the
    interpreter and platform descriptions, and the local time zone through
    which [datetime.fromtimestamp] reads a POSIX time. *)
Record Environment : Type :=
  { os_environ : gmap string string;
    os_getcwd : result string;
    sys_version : string;
    platform_platform : string;
    local_time : spec_float → result datetime }.

Record World : Type :=
  { filesystem : FileSystem;
    environment : Environment;
    clock : datetime }.

Definition Path_exists (w : World) (p : string) : py bool :=
  call (SysExists p) (fs_exists (filesystem w) p).
Definition Path_is_dir (w : World) (p : string) : py bool :=
  call (SysIsDir p) (fs_is_dir (filesystem w) p).
Definition Path_is_file (w : World) (p : string) : py bool :=
  call (SysIsFile p) (fs_is_file (filesystem w) p).
Definition Path_glob (w : World) (dir pat : string) : py (list string) :=
  call (SysGlob dir pat) (fs_glob (filesystem w) dir pat).
Definition Path_stat (w : World) (p : string) : py stat_result :=
  call (SysStat p) (fs_stat (filesystem w) p).
Definition datetime_fromtimestamp (w : World) (t : spec_float) : py datetime :=
  call (SysFromTimestamp t) (local_time (environment w) t).
Definition datetime_now (w : World) : py datetime :=
  call SysNow (Return (clock w)).
Definition environ (w : World) : py (gmap string string) :=
  call SysEnviron (Return (os_environ (environment w))).
Definition getcwd (w : World) : py string :=
  call SysGetcwd (os_getcwd (environment w)).

(** [Path.name]: the final component, what follows the last separator. *)
Fixpoint final_component (acc p : string) : string :=
  match p with
  | EmptyString => acc
  | String c rest =>
      if Ascii.eqb c "/" then final_component "" rest
      else final_component (acc +:+ String c "") rest
  end.

Definition Path_name (p : string) : string := final_component "" p.

(** ** Formatting a datetime *)

Definition digit_char (d : Z) : ascii := ascii_of_nat (48 + Z.to_nat d).

(** The decimal digits of [n >= 0], most significant first, in front of [acc]. *)
Fixpoint decimal_aux (fuel : nat) (n : Z) (acc : string) : string :=
  match fuel with
  | O => acc
  | S fuel' =>
      let acc' := String (digit_char (n mod 10)) acc in
      if (n / 10 =? 0)%Z then acc' else decimal_aux fuel' (n / 10) acc'
  end.

Definition decimal (n : Z) : string := decimal_aux (S (Z.to_nat (Z.log2 n))) n "".

Fixpoint zeros (k : nat) : string :=
  match k with O => "" | S k' => String "0" (zeros k') end.

(** ['%0<width>d' % n]: at least [width] characters, zeros on the left. *)
Definition format_d (width : nat) (n : Z) : string :=
  if (n <? 0)%Z then
    let s := decimal (- n) in "-" +:+ zeros (width - 1 - String.length s) +:+ s
  else
    let s := decimal n in zeros (width - String.length s) +:+ s.

(** [dt.isoformat()] of a naive datetime: the fraction is printed only when
    the microseconds are not zero. *)
Definition isoformat (dt : datetime) : string :=
  format_d 4 (year dt) +:+ "-" +:+ format_d 2 (month dt) +:+ "-" +:+ format_d 2 (day dt)
  +:+ "T" +:+
  format_d 2 (hour dt) +:+ ":" +:+ format_d 2 (minute dt) +:+ ":" +:+ format_d 2 (second dt)
  +:+ (if (microsecond dt =? 0)%Z then "" else "." +:+ format_d 6 (microsecond dt)).

(** The ranges the [datetime] constructor enforces. *)
Definition valid_datetime (dt : datetime) : Prop :=
  1 ≤ year dt ≤ 9999 ∧ 1 ≤ month dt ≤ 12 ∧ 1 ≤ day dt ≤ 31 ∧
  0 ≤ hour dt ≤ 23 ∧ 0 ≤ minute dt ≤ 59 ∧ 0 ≤ second dt ≤ 59 ∧
  0 ≤ microsecond dt ≤ 999999.

(** Every datetime the world hands out is a datetime object. *)
Definition wf_world (w : World) : Prop :=
  valid_datetime (clock w) ∧
  ∀ t dt, local_time (environment w) t = Return dt → valid_datetime dt.

(** The ISO-8601 calendar date and time, extended format:
    [YYYY-MM-DDThh:mm:ss], optionally followed by [.ffffff]. *)
Inductive char_class : Type := Digit | Lit (c : ascii).

Definition is_digit (c : ascii) : bool :=
  (48 <=? nat_of_ascii c)%nat && (nat_of_ascii c <=? 57)%nat.

Fixpoint matches (pat : list char_class) (s : string) : bool :=
  match pat, s with
  | [], EmptyString => true
  | Digit :: pat', String c s' => is_digit c && matches pat' s'
  | Lit l :: pat', String c s' => Ascii.eqb l c && matches pat' s'
  | _, _ => false
  end.

Definition iso_seconds : list char_class :=
  [Digit; Digit; Digit; Digit; Lit "-"; Digit; Digit; Lit "-"; Digit; Digit; Lit "T";
   Digit; Digit; Lit ":"; Digit; Digit; Lit ":"; Digit; Digit]%char.

Definition iso_fraction : list char_class :=
  [Lit "."; Digit; Digit; Digit; Digit; Digit; Digit]%char.

Definition is_iso8601 (s : string) : bool :=
  matches iso_seconds s || matches (iso_seconds ++ iso_fraction) s.

(** ** list_files *)

(** The entry appended for a regular file. *)
Definition file_entry (file_path : string) (stat : stat_result) (modified : datetime)
  : pyval :=
  PyDict (dict [("name", PyStr (Path_name file_path));
                ("path", PyStr file_path);
                ("size", PyInt (st_size stat));
                ("modified", PyStr (isoformat modified));
                ("is_file", PyBool true)]).

(** The entry appended for a directory. *)
Definition dir_entry (file_path : string) : pyval :=
  PyDict (dict [("name", PyStr (Path_name file_path));
                ("path", PyStr file_path);
                ("is_file", PyBool false)]).

(** [for file_path in directory.glob(request.pattern): ...], with the list
    [files] built so far. *)
Fixpoint list_files_loop (w : World) (matched : list string) (files : list pyval)
  : py (list pyval) :=
  match matched with
  | [] => mret files
  | file_path :: rest =>
      is_file ← Path_is_file w file_path;
      if is_file : bool then
        stat ← Path_stat w file_path;
        modified ← datetime_fromtimestamp w (st_mtime stat);
        list_files_loop w rest (files ++ [file_entry file_path stat modified])
      else
        is_dir ← Path_is_dir w file_path;
        if is_dir : bool then
          list_files_loop w rest (files ++ [dir_entry file_path])
        else
          list_files_loop w rest files
  end.

Definition list_files_try (w : World) (request : FileListRequest)
  : py (gmap string pyval) :=
  exists_ ← Path_exists w (directory request);
  if negb exists_ then
    mret (dict [("error", PyStr ("Directory does not exist: " +:+ directory request));
                ("directory", PyStr (directory request))])
  else
    is_dir ← Path_is_dir w (directory request);
    if negb is_dir then
      mret (dict [("error", PyStr ("Path is not a directory: " +:+ directory request));
                  ("directory", PyStr (directory request))])
    else
      matched ← Path_glob w (directory request) (pattern request);
      files ← list_files_loop w matched [];
      mret (dict [("directory", PyStr (directory request));
                  ("pattern", PyStr (pattern request));
                  ("files", PyList files);
                  ("count", PyInt (Z.of_nat (length files)))]).

Definition list_files (w : World) (request : FileListRequest) : py (gmap string pyval) :=
  try_except (list_files_try w request)
    (λ e, mret (dict [("error", PyStr ("File listing error: " +:+ exn_str e));
                      ("directory", PyStr (directory request));
                      ("pattern", PyStr (pattern request))])).

(** ** system_info *)

Definition safe_vars : list string := ["PATH"; "HOME"; "USER"; "SHELL"; "LANG"; "PWD"].

(** The body of [for var in safe_vars]:
    [if var in os.environ: env_vars[var] = os.environ[var]] *)
Definition collect_step (os_env env_vars : gmap string string) (var : string)
  : gmap string string :=
  match os_env !! var with
  | Some value => <[var := value]> env_vars
  | None => env_vars
  end.

Definition collect_env_vars (os_env : gmap string string) : gmap string string :=
  foldl (collect_step os_env) ∅ safe_vars.

Definition system_info (w : World) : py SystemInfoResponse :=
  os_env ← environ w;
  let env_vars := collect_env_vars os_env in
  now ← datetime_now w;
  cwd ← getcwd w;
  mret {| timestamp := isoformat now;
          python_version := sys_version (environment w);
          platform := platform_platform (environment w);
          working_directory := cwd;
          environment_variables := env_vars |}.

(** ** echo *)

Definition echo (w : World) (message : string) : py (gmap string pyval) :=
  now ← datetime_now w;
  mret (dict [("message", PyStr message);
              ("timestamp", PyStr (isoformat now));
              ("length", PyInt (Z.of_nat (String.length message)))]).

(** ** The four registered tools and the shape of what they return *)

Inductive tool_call : Type :=
| Calculator (request : CalculationRequest)
| ListFiles (request : FileListRequest)
| SystemInfo
| Echo (message : string).

(** [calculator], [list_files] and [echo] return a dict, [system_info] a
    [SystemInfoResponse]. *)
Inductive envelope : Type :=
| Payload (d : gmap string pyval)
| Model (r : SystemInfoResponse).

Definition invoke (w : World) (c : tool_call) : py envelope :=
  match c with
  | Calculator request => Payload <$> calculator request
  | ListFiles request => Payload <$> list_files w request
  | SystemInfo => Model <$> system_info w
  | Echo message => Payload <$> echo w message
  end.

(** ** A concrete world, for examples

    A small file system given by the table of its nodes, read in the way
    [pathlib] reads it: [exists], [is_dir], [is_file] and [stat] follow
    symbolic links, so that a link whose target is gone neither exists nor is
    a file or a directory, while [glob] still yields it.  [glob] is
    interpreted for one-component patterns made of literal characters, [*]
    and [?]; the clock and the file times are read in UTC. *)

Inductive node : Type :=
| RegularFile (size : Z) (mtime : spec_float)
| Directory (names : list string)
| DanglingLink.

(** [fnmatch] for literal characters, [*] and [?]. *)
Fixpoint wildcard (pat : string) : string → bool :=
  match pat with
  | EmptyString => λ s, match s with EmptyString => true | _ => false end
  | String p pat' =>
      if Ascii.eqb p "*" then
        fix star (s : string) : bool :=
          wildcard pat' s || match s with EmptyString => false | String _ s' => star s' end
      else
        λ s, match s with
             | EmptyString => false
             | String c s' => (Ascii.eqb p "?" || Ascii.eqb p c) && wildcard pat' s'
             end
  end.

Definition lookup_node (nodes : list (string * node)) (p : string) : option node :=
  snd <$> List.find (λ entry, String.eqb (fst entry) p) nodes.

Definition table_fs (nodes : list (string * node)) : FileSystem :=
  {| fs_exists p :=
       Return (match lookup_node nodes p with
               | Some (RegularFile _ _) | Some (Directory _) => true
               | _ => false
               end);
     fs_is_dir p :=
       Return (match lookup_node nodes p with Some (Directory _) => true | _ => false end);
     fs_is_file p :=
       Return (match lookup_node nodes p with Some (RegularFile _ _) => true | _ => false end);
     fs_glob dir pat :=
       if String.eqb pat "" then Raise (PyExn "ValueError" "Unacceptable pattern: ''")
       else match lookup_node nodes dir with
            | Some (Directory names) =>
                Return ((λ name, dir +:+ "/" +:+ name) <$> List.filter (wildcard pat) names)
            | _ => Return []
            end;
     fs_stat p :=
       match lookup_node nodes p with
       | Some (RegularFile size mtime) => Return {| st_size := size; st_mtime := mtime |}
       | Some (Directory _) => Return {| st_size := 4096; st_mtime := Float.of_Z 0 |}
       | _ => Raise (PyExn "FileNotFoundError"
                      ("[Errno 2] No such file or directory: '" +:+ p +:+ "'"))
       end |}.

(** The proleptic Gregorian date of a day number counted from 1970-01-01. *)
Definition civil_from_days (days : Z) : Z * Z * Z :=
  let z := days + 719468 in
  let era := z / 146097 in
  let doe := z mod 146097 in
  let yoe := (doe - doe / 1460 + doe / 36524 - doe / 146096) / 365 in
  let doy := doe - (365 * yoe + yoe / 4 - yoe / 100) in
  let mp := (5 * doy + 2) / 153 in
  let d := doy - (153 * mp + 2) / 5 + 1 in
  let m := if mp <? 10 then mp + 3 else mp - 9 in
  let y := yoe + era * 400 + (if m <=? 2 then 1 else 0) in
  (y, m, d).

(** [num / den] rounded to the nearest integer, ties to even ([den > 0]). *)
Definition round_half_even (num den : Z) : Z :=
  let q := num / den in
  let r := num mod den in
  if 2 * r <? den then q
  else if den <? 2 * r then q + 1
  else if Z.even q then q else q + 1.

Definition valid_datetimeb (dt : datetime) : bool :=
  (1 <=? year dt) && (year dt <=? 9999) && (1 <=? month dt) && (month dt <=? 12) &&
  (1 <=? day dt) && (day dt <=? 31) && (0 <=? hour dt) && (hour dt <=? 23) &&
  (0 <=? minute dt) && (minute dt <=? 59) && (0 <=? second dt) && (second dt <=? 59) &&
  (0 <=? microsecond dt) && (microsecond dt <=? 999999).

(** The datetime of a whole number of microseconds since the epoch, in UTC. *)
Definition utc_of_microseconds (us : Z) : result datetime :=
  let secs := us / 1000000 in
  let '(y, m, d) := civil_from_days (secs / 86400) in
  let sod := secs mod 86400 in
  let dt := {| year := y; month := m; day := d;
               hour := sod / 3600; minute := sod mod 3600 / 60; second := sod mod 60;
               microsecond := us mod 1000000 |} in
  if valid_datetimeb dt then Return dt
  else Raise (PyExn "ValueError" ("year " +:+ format_d 1 y +:+ " is out of range")).

(** [datetime.fromtimestamp(t)] in a process whose local time is UTC. *)
Definition utc_time (t : spec_float) : result datetime :=
  match t with
  | S754_nan => Raise (PyExn "ValueError" "cannot convert float NaN to integer")
  | S754_infinity _ => Raise (PyExn "OverflowError" "cannot convert float infinity to integer")
  | S754_zero _ => utc_of_microseconds 0
  | S754_finite s m e =>
      let num := (if s then - Z.pos m else Z.pos m) * 1000000 in
      utc_of_microseconds
        (if 0 <=? e then num * 2 ^ e else round_half_even num (2 ^ (- e)))
  end.

Definition example_nodes : list (string * node) :=
  [("/srv", Directory ["data"; "notes.txt"]);
   ("/srv/notes.txt", RegularFile 12 (Float.of_Z 1600000000));
   ("/srv/data", Directory ["report.txt"; "logs"; "current"]);
   ("/srv/data/report.txt", RegularFile 1024 (Float.of_Z 1700000000));
   ("/srv/data/logs", Directory []);
   ("/srv/data/current", DanglingLink)].

Definition example_environment : Environment :=
  {| os_environ := list_to_map [("PATH", "/usr/bin:/bin"); ("HOME", "/home/mcp");
                                ("API_TOKEN", "s3cr3t"); ("LANG", "C.UTF-8")];
     os_getcwd := Return "/srv";
     sys_version := "3.11.4 (main, Jun  7 2023, 00:00:00) [GCC 12.2.0]";
     platform_platform := "Linux-6.1.0-x86_64-with-glibc2.36";
     local_time := utc_time |}.

Definition example_world : World :=
  {| filesystem := table_fs example_nodes;
     environment := example_environment;
     clock := {| year := 2024; month := 5; day := 17;
                 hour := 9; minute := 30; second := 0; microsecond := 250000 |} |}.

(** The same file system and environment, read one second later. *)
Definition example_world_later : World :=
  {| filesystem := filesystem example_world;
     environment := environment example_world;
     clock := {| year := 2024; month := 5; day := 17;
                 hour := 9; minute := 30; second := 1; microsecond := 250000 |} |}.

(** The same world for a process whose working directory has been removed:
    [os.getcwd()] raises. *)
Definition world_without_cwd : World :=
  {| filesystem := filesystem example_world;
     environment :=
       {| os_environ := os_environ example_environment;
          os_getcwd := Raise (PyExn "FileNotFoundError" "[Errno 2] No such file or directory");
          sys_version := sys_version example_environment;
          platform_platform := platform_platform example_environment;
          local_time := utc_time |};
     clock := clock example_world |}.

(** What [list_files] reports for the pattern [*] in [/srv/data]. *)
Definition example_request : FileListRequest :=
  {| directory := "/srv/data"; pattern := "*" |}.

Definition example_files : list pyval :=
  [PyDict (dict [("name", PyStr "report.txt");
                 ("path", PyStr "/srv/data/report.txt");
                 ("size", PyInt 1024);
                 ("modified", PyStr "2023-11-14T22:13:20");
                 ("is_file", PyBool true)]);
   PyDict (dict [("name", PyStr "logs");
                 ("path", PyStr "/srv/data/logs");
                 ("is_file", PyBool false)])].

(** ** The contract, as the specification words it *)

(** The arithmetic result of a supported operation. *)
Definition arithmetic (op : string) (x y : spec_float) : spec_float :=
  if decide (op = "add") then Float.add x y
  else if decide (op = "subtract") then Float.sub x y
  else if decide (op = "multiply") then Float.mul x y
  else Float.div x y.

(** calculate(operation, a, b): division by zero and unknown operations are
    errors, anything else succeeds with the arithmetic result. *)
Definition calculate_contract (op : string) (x y : spec_float) : gmap string pyval :=
  let echoed := PyDict (dict [("a", PyFloat x); ("b", PyFloat y)]) in
  if decide (op = "divide" ∧ Float.eqb y (Float.of_Z 0) = true) then
    dict [("error", PyStr "Division by zero is not allowed");
          ("operation", PyStr op); ("inputs", echoed)]
  else if decide (op ∈ supported_operations) then
    dict [("result", PyFloat (arithmetic op x y));
          ("operation", PyStr op); ("inputs", echoed)]
  else
    dict [("error", PyStr ("Unknown operation: " +:+ op));
          ("supported_operations",
           PyList [PyStr "add"; PyStr "subtract"; PyStr "multiply"; PyStr "divide"])].

(** The four payloads of listFiles. *)
Definition missing_directory (dir : string) : gmap string pyval :=
  dict [("error", PyStr ("Directory does not exist: " +:+ dir)); ("directory", PyStr dir)].

Definition not_a_directory (dir : string) : gmap string pyval :=
  dict [("error", PyStr ("Path is not a directory: " +:+ dir)); ("directory", PyStr dir)].

Definition listing_failure (dir pat : string) (e : pyexn) : gmap string pyval :=
  dict [("error", PyStr ("File listing error: " +:+ exn_str e));
        ("directory", PyStr dir); ("pattern", PyStr pat)].

Definition listing (dir pat : string) (files : list pyval) : gmap string pyval :=
  dict [("directory", PyStr dir); ("pattern", PyStr pat);
        ("files", PyList files); ("count", PyInt (Z.of_nat (length files)))].

(** What one glob match contributes to the listing: a regular file its five
    fields, a directory its three, anything else nothing. *)
Inductive listed (w : World) (file_path : string) : option pyval → Prop :=
| listed_file (stat : stat_result) (modified : datetime) :
    fs_is_file (filesystem w) file_path = Return true →
    fs_stat (filesystem w) file_path = Return stat →
    local_time (environment w) (st_mtime stat) = Return modified →
    listed w file_path
      (Some (PyDict (dict [("name", PyStr (Path_name file_path));
                           ("path", PyStr file_path);
                           ("size", PyInt (st_size stat));
                           ("modified", PyStr (isoformat modified));
                           ("is_file", PyBool true)])))
| listed_dir :
    fs_is_file (filesystem w) file_path = Return false →
    fs_is_dir (filesystem w) file_path = Return true →
    listed w file_path
      (Some (PyDict (dict [("name", PyStr (Path_name file_path));
                           ("path", PyStr file_path);
                           ("is_file", PyBool false)])))
| listed_neither :
    fs_is_file (filesystem w) file_path = Return false →
    fs_is_dir (filesystem w) file_path = Return false →
    listed w file_path None.

(** The calls that enumerate a directory or look at its entries. *)
Definition enumerates (c : syscall) : bool :=
  match c with
  | SysGlob _ _ | SysIsFile _ | SysStat _ | SysFromTimestamp _ => true
  | _ => false
  end.

(** An Error payload is a dict with the key [error]. *)
Definition is_error (env : envelope) : bool :=
  match env with Payload d => has_key "error" d | Model _ => false end.



(** A payload echoes all the inputs of the call it answers. *)
Definition echoes_inputs (c : tool_call) (d : gmap string pyval) : Prop :=
  match c with
  | Calculator request =>
      d !! "operation" = Some (PyStr (operation request)) ∧
      d !! "inputs" = Some (inputs_of request)
  | ListFiles request =>
      d !! "directory" = Some (PyStr (directory request)) ∧
      d !! "pattern" = Some (PyStr (pattern request))
  | SystemInfo => True
  | Echo message => d !! "message" = Some (PyStr message)
  end.


(** Two worlds with the same file system and the same environment; their
    clocks may differ. *)
Definition same_surroundings (w1 w2 : World) : Prop :=
  filesystem w1 = filesystem w2 ∧ environment w1 = environment w2.

(** An envelope with its timestamp field blanked. *)
Definition without_timestamp (env : envelope) : envelope :=
  match env with
  | Payload d => Payload (delete "timestamp" d)
  | Model r =>
      Model {| timestamp := "";
               python_version := python_version r;
               platform := platform r;
               working_directory := working_directory r;
               environment_variables := environment_variables r |}
  end.

(** ** main *)







(** ** Notions used to state what the tools do *)

(** One of the two zeros, [0.0] or [-0.0]. *)
Definition float_is_zero (x : spec_float) : bool :=
  match x with S754_zero _ => true | _ => false end.

(** A match that is seen to be a regular file or a directory. *)
Definition listable (w : World) (file_path : string) : bool :=
  match fs_is_file (filesystem w) file_path with
  | Return true => true
  | Return false =>
      match fs_is_dir (filesystem w) file_path with Return true => true | _ => false end
  | Raise _ => false
  end.

(** A match the loop cannot look at: one of the calls it makes on it raises. *)
Definition unreadable (w : World) (file_path : string) : Prop :=
  (∃ e, fs_is_file (filesystem w) file_path = Raise e)
  ∨ (fs_is_file (filesystem w) file_path = Return true ∧
     ∃ e, fs_stat (filesystem w) file_path = Raise e)
  ∨ (fs_is_file (filesystem w) file_path = Return true ∧
     ∃ stat e, fs_stat (filesystem w) file_path = Return stat ∧
               local_time (environment w) (st_mtime stat) = Raise e)
  ∨ (fs_is_file (filesystem w) file_path = Return false ∧
     ∃ e, fs_is_dir (filesystem w) file_path = Raise e).

(** The path and name fields of an entry of the listing. *)
Definition entry_field (field : string) (entry : pyval) : option string :=
  match entry with
  | PyDict props => match props !! field with Some (PyStr s) => Some s | _ => None end
  | _ => None
  end.

Definition entry_path : pyval → option string := entry_field "path".



(** ** More concrete worlds *)

(** A directory with a file whose time of modification is far beyond the
    year 9999: [datetime.fromtimestamp] refuses it. *)
Definition odd_nodes : list (string * node) :=
  [("/srv/odd", Directory ["a.txt"; "future.bin"; "z.txt"]);
   ("/srv/odd/a.txt", RegularFile 1 (Float.of_Z 1600000000));
   ("/srv/odd/future.bin", RegularFile 7 (Float.of_Z 1000000000000000));
   ("/srv/odd/z.txt", RegularFile 2 (Float.of_Z 1600000000))].

Definition odd_world : World :=
  {| filesystem := table_fs odd_nodes;
     environment := example_environment;
     clock := clock example_world |}.




(** The result field of what a tool returned, if there is one. *)
Definition result_of (m : py (gmap string pyval)) : option pyval :=
  match outcome m with
  | Return d => d !! "result"
  | Raise _ => None
  end.

(** The calls the loop of [list_files] may make on the matches: [is_file] on
    each of them, [is_dir] after [is_file] answered no, [stat] after it
    answered yes, and the time conversion of what [stat] returned. *)
Inductive loop_call (w : World) (matched : list string) : syscall → Prop :=
| loop_is_file (p : string) :
    p ∈ matched → loop_call w matched (SysIsFile p)
| loop_is_dir (p : string) :
    p ∈ matched → fs_is_file (filesystem w) p = Return false →
    loop_call w matched (SysIsDir p)
| loop_stat (p : string) :
    p ∈ matched → fs_is_file (filesystem w) p = Return true →
    loop_call w matched (SysStat p)
| loop_time (p : string) (stat : stat_result) :
    p ∈ matched → fs_is_file (filesystem w) p = Return true →
    fs_stat (filesystem w) p = Return stat →
    loop_call w matched (SysFromTimestamp (st_mtime stat)).

(** The example world after a change of the variables outside the
    allow-list: the token is rotated and a new secret is exported. *)
Definition example_world_rotated : World :=
  {| filesystem := filesystem example_world;
     environment :=
       {| os_environ :=
            <["AWS_SECRET_ACCESS_KEY" := "wJalr"]>
              (<["API_TOKEN" := "r0t4t3d"]> (os_environ example_environment));
          os_getcwd := os_getcwd example_environment;
          sys_version := sys_version example_environment;
          platform_platform := platform_platform example_environment;
          local_time := local_time example_environment |};
     clock := clock example_world |}.

(** * Properties *)

(** ** The monad *)

Lemma outcome_bind {A B : Type} (m : py A) (f : A → py B) :
  outcome (m ≫= f) =
  match outcome m with Return v => outcome (f v) | Raise e => Raise e end.
Proof. unfold mbind, py_bind. destruct (outcome m); reflexivity. Qed.

Lemma trace_bind {A B : Type} (m : py A) (f : A → py B) :
  trace (m ≫= f) =
  match outcome m with Return v => (trace m ++ trace (f v))%list | Raise _ => trace m end.
Proof. unfold mbind, py_bind. destruct (outcome m); reflexivity. Qed.

Lemma outcome_fmap {A B : Type} (g : A → B) (m : py A) :
  outcome (g <$> m) =
  match outcome m with Return v => Return (g v) | Raise e => Raise e end.
Proof. unfold fmap, py_fmap. rewrite outcome_bind. destruct (outcome m); reflexivity. Qed.

Lemma try_except_returns {A : Type} (body : py A) (handler : pyexn → py A) :
  (∀ e, ∃ v, outcome (handler e) = Return v) →
  ∃ v, outcome (try_except body handler) = Return v.
Proof.
  intros Hh. unfold try_except.
  destruct (outcome body) as [v|e] eqn:Hb.
  - exists v. exact Hb.
  - exact (Hh e).
Qed.

(** ** calculator *)

Lemma eqb_divide_zero_guard (x y : spec_float) :
  Float.eqb y (Float.of_Z 0) = false →
  float_truediv x y = mret (Float.div x y).
Proof. intros H. unfold float_truediv. rewrite H. reflexivity. Qed.

(** The [try] block of [calculator] never raises: the division is guarded. *)
Lemma calculator_try_returns (request : CalculationRequest) :
  ∃ d, calculator_try request = mret d.
Proof.
  unfold calculator_try, calculator_return.
  repeat (destruct (String.eqb _ _); [eexists; reflexivity|]).
  destruct (String.eqb _ _); [|eexists; reflexivity].
  destruct (Float.eqb _ _) eqn:Hz; [eexists; reflexivity|].
  rewrite (eqb_divide_zero_guard _ _ Hz). eexists; reflexivity.
Qed.

Lemma calculator_is_try (request : CalculationRequest) :
  calculator request = calculator_try request.
Proof.
  unfold calculator. destruct (calculator_try_returns request) as [d ->].
  reflexivity.
Qed.

(** [calculator] computes what the contract says, and calls nothing. *)
Lemma calculator_refines_contract (request : CalculationRequest) :
  calculator request
  = mret (calculate_contract (operation request) (a request) (b request)).
Proof.
  rewrite calculator_is_try.
  unfold calculator_try, calculator_return, calculate_contract, arithmetic, inputs_of.
  destruct request as [op x y]. cbn [operation a b].
  destruct (String.eqb_spec op "add") as [->|Hadd].
  { reflexivity. }
  destruct (String.eqb_spec op "subtract") as [->|Hsub].
  { reflexivity. }
  destruct (String.eqb_spec op "multiply") as [->|Hmul].
  { reflexivity. }
  destruct (String.eqb_spec op "divide") as [->|Hdiv].
  - destruct (Float.eqb y (Float.of_Z 0)) eqn:Hz.
    + rewrite decide_True by done. reflexivity.
    + rewrite (eqb_divide_zero_guard _ _ Hz).
      rewrite decide_False by (intros [_ ?]; discriminate).
      reflexivity.
  - rewrite decide_False by (intros [? _]; done).
    rewrite decide_False; [reflexivity|].
    unfold supported_operations. rewrite !elem_of_cons, elem_of_nil. tauto.
Qed.

(** C2. [calculator] meets the contract of calculate(operation, a, b) on every
    operation name and every pair of floats, and makes no call to the
    outside: a zero divisor under "divide" gives the division-by-zero error
    with the inputs echoed, a name outside the four supported ones gives the
    unknown-operation error with the list of supported operations, and every
    other request succeeds with the arithmetic result, the operation and the
    inputs.  In particular calculate("add", 2, 3) succeeds with result 5. *)
Theorem calculator_meets_contract :
  (∀ (op : string) (x y : spec_float),
     calculator {| operation := op; a := x; b := y |}
     = mret (calculate_contract op x y)) ∧
  outcome (calculator {| operation := "add"; a := Float.of_Z 2; b := Float.of_Z 3 |})
  = Return (dict [("result", PyFloat (Float.of_Z 5)); ("operation", PyStr "add");
                  ("inputs", PyDict (dict [("a", PyFloat (Float.of_Z 2));
                                           ("b", PyFloat (Float.of_Z 3))]))]).
Proof.
  split; [|exact eq_refl].
  intros op x y. apply (calculator_refines_contract {| operation := op; a := x; b := y |}).
Qed.

Example calculator_examples :
  outcome (calculator {| operation := "divide"; a := Float.of_Z 1; b := Float.of_Z 0 |})
  = Return (dict [("error", PyStr "Division by zero is not allowed");
                  ("operation", PyStr "divide");
                  ("inputs", PyDict (dict [("a", PyFloat (Float.of_Z 1));
                                           ("b", PyFloat (Float.of_Z 0))]))]) ∧
  outcome (calculator {| operation := "mod"; a := Float.of_Z 1; b := Float.of_Z 2 |})
  = Return (dict [("error", PyStr "Unknown operation: mod");
                  ("supported_operations",
                   PyList [PyStr "add"; PyStr "subtract"; PyStr "multiply";
                           PyStr "divide"])]) ∧
  Float.sub (Float.of_Z 5) (Float.of_Z 3) = Float.of_Z 2 ∧
  Float.mul (Float.of_Z 6) (Float.of_Z 7) = Float.of_Z 42 ∧
  Float.div (Float.of_Z 84) (Float.of_Z 2) = Float.of_Z 42 ∧
  Float.div (Float.of_Z 1) (S754_zero true) = S754_infinity true.
Proof. repeat split; exact eq_refl. Qed.

(** ** echo *)


(** ** system_info *)

Lemma collect_step_lookup (os_env : gmap string string) (vars : list string)
    (acc : gmap string string) (k : string) :
  foldl (collect_step os_env) acc vars !! k =
  if decide (k ∈ vars) then
    match os_env !! k with Some value => Some value | None => acc !! k end
  else acc !! k.
Proof.
  revert acc. induction vars as [|var vars IH]; intros acc; cbn [foldl].
  - rewrite decide_False by apply not_elem_of_nil. reflexivity.
  - rewrite IH. unfold collect_step.
    destruct (decide (k ∈ vars)) as [Hin|Hnin].
    + rewrite decide_True by (right; exact Hin).
      destruct (os_env !! k) eqn:Hk; [reflexivity|].
      destruct (os_env !! var) eqn:Hv; [|reflexivity].
      rewrite lookup_insert_ne; [reflexivity|congruence].
    + destruct (decide (k = var)) as [->|Hne].
      * rewrite decide_True by left.
        destruct (os_env !! var); [apply lookup_insert_eq|reflexivity].
      * rewrite decide_False by (rewrite elem_of_cons; tauto).
        destruct (os_env !! var); [|reflexivity].
        rewrite lookup_insert_ne; [reflexivity|congruence].
Qed.

(** What ends up in [env_vars]: the allow-listed variables that are set. *)
Lemma collect_env_vars_lookup (os_env : gmap string string) (k : string) :
  collect_env_vars os_env !! k = if decide (k ∈ safe_vars) then os_env !! k else None.
Proof.
  unfold collect_env_vars. rewrite (collect_step_lookup os_env safe_vars ∅ k).
  destruct (decide (k ∈ safe_vars)); [|apply lookup_empty].
  destruct (os_env !! k); [reflexivity|apply lookup_empty].
Qed.

Lemma system_info_outcome (w : World) :
  outcome (system_info w) =
  match os_getcwd (environment w) with
  | Return cwd =>
      Return {| timestamp := isoformat (clock w);
                python_version := sys_version (environment w);
                platform := platform_platform (environment w);
                working_directory := cwd;
                environment_variables := collect_env_vars (os_environ (environment w)) |}
  | Raise e => Raise e
  end.
Proof.
  unfold system_info, environ, datetime_now, getcwd, call, mbind, py_bind. simpl.
  destruct (os_getcwd (environment w)); reflexivity.
Qed.

(** C7. Whatever the process environment holds, every key of the
    environment_variables field of a [system_info] result is one of PATH,
    HOME, USER, SHELL, LANG, PWD, and is reported with the value it has in
    the environment. *)
Theorem system_info_env_allow_list (w : World) (r : SystemInfoResponse) :
  outcome (system_info w) = Return r →
  dom (environment_variables r) ⊆ {[ "PATH"; "HOME"; "USER"; "SHELL"; "LANG"; "PWD" ]} ∧
  environment_variables r ⊆ os_environ (environment w).
Proof.
  rewrite system_info_outcome.
  destruct (os_getcwd (environment w)) as [cwd|e]; [|discriminate].
  intros [= <-]. cbn [environment_variables]. split.
  - intros k. rewrite elem_of_dom, collect_env_vars_lookup.
    destruct (decide (k ∈ safe_vars)) as [Hin|_].
    + intros _. revert Hin. unfold safe_vars. set_unfold. tauto.
    + intros [? [=]].
  - apply map_subseteq_spec. intros k v.
    rewrite collect_env_vars_lookup.
    destruct (decide (k ∈ safe_vars)); [done|discriminate].
Qed.

Lemma system_info_env_allow_list_witness :
  ∃ r, outcome (system_info example_world) = Return r ∧
       dom (environment_variables r) ⊆
         {[ "PATH"; "HOME"; "USER"; "SHELL"; "LANG"; "PWD" ]} ∧
       environment_variables r !! "API_TOKEN" = None ∧
       environment_variables r !! "HOME" = Some "/home/mcp".
Proof.
  eexists. split; [reflexivity|].
  split; [|split; reflexivity].
  apply (system_info_env_allow_list example_world). reflexivity.
Defined.

(** ** list_files *)

(** The loop appends to [files], match by match, what [listed] says. *)
Lemma list_files_loop_listed (w : World) (matched : list string) :
  ∀ files files',
    outcome (list_files_loop w matched files) = Return files' →
    ∃ items, Forall2 (listed w) matched items ∧ files' = (files ++ omap id items)%list.
Proof.
  induction matched as [|file_path rest IH]; intros files files'; cbn [list_files_loop].
  - intros [= <-]. exists []. split; [constructor|]. cbn. rewrite app_nil_r. reflexivity.
  - rewrite outcome_bind. unfold Path_is_file at 1. cbn [call outcome].
    destruct (fs_is_file (filesystem w) file_path) as [[|]|e] eqn:Hfile; [| |discriminate].
    + rewrite outcome_bind. unfold Path_stat at 1. cbn [call outcome].
      destruct (fs_stat (filesystem w) file_path) as [stat|e] eqn:Hstat; [|discriminate].
      rewrite outcome_bind. unfold datetime_fromtimestamp at 1. cbn [call outcome].
      destruct (local_time (environment w) (st_mtime stat)) as [modified|e] eqn:Htime;
        [|discriminate].
      intros Hrest. destruct (IH _ _ Hrest) as (items & Hitems & ->).
      exists (Some (file_entry file_path stat modified) :: items). split.
      * constructor; [|exact Hitems]. eapply listed_file; eassumption.
      * cbn. rewrite <- app_assoc. reflexivity.
    + rewrite outcome_bind. unfold Path_is_dir at 1. cbn [call outcome].
      destruct (fs_is_dir (filesystem w) file_path) as [[|]|e] eqn:Hdir; [| |discriminate].
      * intros Hrest. destruct (IH _ _ Hrest) as (items & Hitems & ->).
        exists (Some (dir_entry file_path) :: items). split.
        -- constructor; [|exact Hitems]. apply listed_dir; assumption.
        -- cbn. rewrite <- app_assoc. reflexivity.
      * intros Hrest. destruct (IH _ _ Hrest) as (items & Hitems & ->).
        exists (None :: items). split; [|reflexivity].
        constructor; [|exact Hitems]. apply listed_neither; assumption.
Qed.

(** The four ways a call to [list_files] ends. *)
Lemma list_files_cases (w : World) (request : FileListRequest) :
  let dir := directory request in
  let pat := pattern request in
  (fs_exists (filesystem w) dir = Return false ∧
   list_files w request = Run [SysExists dir] (Return (missing_directory dir)))
  ∨ (fs_exists (filesystem w) dir = Return true ∧
     fs_is_dir (filesystem w) dir = Return false ∧
     list_files w request = Run [SysExists dir; SysIsDir dir] (Return (not_a_directory dir)))
  ∨ (fs_exists (filesystem w) dir = Return true ∧
     fs_is_dir (filesystem w) dir = Return true ∧
     ∃ matched files,
       fs_glob (filesystem w) dir pat = Return matched ∧
       outcome (list_files_loop w matched []) = Return files ∧
       outcome (list_files w request) = Return (listing dir pat files))
  ∨ (∃ e, outcome (list_files_try w request) = Raise e ∧
          outcome (list_files w request) = Return (listing_failure dir pat e)).
Proof.
  intros dir pat. unfold list_files, try_except.
  destruct (outcome (list_files_try w request)) as [d|e] eqn:Htry.
  2:{ right; right; right. exists e. split; reflexivity. }
  revert Htry. unfold list_files_try. fold dir pat.
  unfold Path_exists, Path_is_dir at 1, Path_glob, call, mbind at 1 2 3, py_bind.
  cbn [outcome trace].
  destruct (fs_exists (filesystem w) dir) as [[|]|e]; cbn; [| |discriminate].
  - destruct (fs_is_dir (filesystem w) dir) as [[|]|e]; cbn; [| |discriminate].
    + destruct (fs_glob (filesystem w) dir pat) as [matched|e]; cbn; [|discriminate].
      rewrite outcome_bind.
      destruct (outcome (list_files_loop w matched [])) as [files|e] eqn:Hloop;
        [|discriminate].
      intros [= <-]. right; right; left.
      split; [reflexivity|]. split; [reflexivity|].
      exists matched, files. split; [reflexivity|]. split; [exact Hloop|reflexivity].
    + intros _. right; left. split; [reflexivity|]. split; reflexivity.
  - intros _. left. split; reflexivity.
Qed.

(** C5. When the path does not exist, or exists without being a directory,
    [list_files] returns an error payload (message and directory) and makes
    no call that enumerates: the message is "Directory does not exist: "
    followed by the path in the first case and "Path is not a directory: "
    followed by the path in the second. *)
Theorem list_files_rejects_without_enumerating (w : World) (request : FileListRequest) :
  fs_exists (filesystem w) (directory request) = Return false ∨
  (fs_exists (filesystem w) (directory request) = Return true ∧
   fs_is_dir (filesystem w) (directory request) = Return false) →
  ∃ message,
    outcome (list_files w request)
    = Return (dict [("error", PyStr message); ("directory", PyStr (directory request))]) ∧
    (fs_exists (filesystem w) (directory request) = Return false →
     message = "Directory does not exist: " +:+ directory request) ∧
    (fs_exists (filesystem w) (directory request) = Return true →
     message = "Path is not a directory: " +:+ directory request) ∧
    Forall (λ c, enumerates c = false) (trace (list_files w request)).
Proof.
  intros Hrej.
  destruct (list_files_cases w request)
    as [(Hex & ->)|[(Hex & Hdir & ->)|[(Hex & Hdir & _)|(e & Htry & _)]]].
  - eexists. split; [reflexivity|]. split; [reflexivity|].
    split; [rewrite Hex; discriminate|].
    repeat constructor.
  - eexists. split; [reflexivity|]. split; [rewrite Hex; discriminate|].
    split; [reflexivity|]. repeat constructor.
  - destruct Hrej as [Hno|[_ Hno]]; congruence.
  - exfalso. revert Htry. unfold list_files_try.
    rewrite outcome_bind. unfold Path_exists at 1. cbn [call outcome].
    destruct Hrej as [->|[-> Hno]]; cbn [negb]; [discriminate|].
    rewrite outcome_bind. unfold Path_is_dir at 1. cbn [call outcome].
    rewrite Hno. discriminate.
Qed.

Lemma list_files_rejects_without_enumerating_witness :
  ∃ message,
    outcome (list_files example_world {| directory := "/nonexistent"; pattern := "*" |})
    = Return (dict [("error", PyStr message); ("directory", PyStr "/nonexistent")]) ∧
    message = "Directory does not exist: /nonexistent".
Proof.
  destruct (list_files_rejects_without_enumerating example_world
              {| directory := "/nonexistent"; pattern := "*" |})
    as (message & Hout & Hmissing & _).
  - left. reflexivity.
  - exists message. split; [exact Hout|]. apply Hmissing. reflexivity.
Defined.

(** An entry that is listed is the entry of one of the matches. *)
Lemma listed_entries_from_matches (w : World) (matched : list string)
    (items : list (option pyval)) (entry : pyval) :
  Forall2 (listed w) matched items →
  entry ∈ omap id items →
  ∃ file_path, file_path ∈ matched ∧ listed w file_path (Some entry).
Proof.
  induction 1 as [|file_path item matched items Hitem _ IH]; cbn.
  - intros Hin. apply elem_of_nil in Hin. destruct Hin.
  - destruct item as [entry'|]; cbn.
    + rewrite elem_of_cons. intros [->|Hin].
      * exists file_path. split; [left|exact Hitem].
      * destruct (IH Hin) as (p & Hp & Hl). exists p. split; [right; exact Hp|exact Hl].
    + intros Hin. destruct (IH Hin) as (p & Hp & Hl).
      exists p. split; [right; exact Hp|exact Hl].
Qed.

Lemma listed_entry_path (w : World) (file_path : string) (props : gmap string pyval) :
  listed w file_path (Some (PyDict props)) →
  props !! "path" = Some (PyStr file_path) ∧
  (fs_is_file (filesystem w) file_path = Return true ∨
   fs_is_dir (filesystem w) file_path = Return true).
Proof.
  inversion 1; subst; (split; [reflexivity|]); [left|right]; assumption.
Qed.

Lemma omap_length_le {A : Type} (items : list (option A)) :
  (length (omap id items) ≤ length items)%nat.
Proof. induction items as [|[x|] items IH]; cbn; lia. Qed.

Lemma omap_length_lt {A : Type} (items : list (option A)) :
  None ∈ items → (length (omap id items) < length items)%nat.
Proof.
  induction items as [|[x|] items IH]; cbn.
  - intros Hin. apply elem_of_nil in Hin. destruct Hin.
  - rewrite elem_of_cons. intros [[=]|Hin]. specialize (IH Hin). lia.
  - intros _. pose proof (omap_length_le items). lia.
Qed.

Lemma listed_neither_none (w : World) (matched : list string)
    (items : list (option pyval)) (file_path : string) :
  Forall2 (listed w) matched items →
  file_path ∈ matched →
  fs_is_file (filesystem w) file_path = Return false →
  fs_is_dir (filesystem w) file_path = Return false →
  None ∈ items.
Proof.
  intros Hall Hin Hfile Hdir.
  induction Hall as [|p item matched items Hitem _ IH].
  - apply elem_of_nil in Hin. destruct Hin.
  - apply elem_of_cons in Hin as [<-|Hin]; [|right; exact (IH Hin)].
    inversion Hitem; subst; [congruence|congruence|left].
Qed.

(** A successful call, taken apart. *)
Lemma list_files_success (w : World) (request : FileListRequest) (d : gmap string pyval) :
  outcome (list_files w request) = Return d →
  has_key "error" d = false →
  ∃ matched items,
    fs_exists (filesystem w) (directory request) = Return true ∧
    fs_is_dir (filesystem w) (directory request) = Return true ∧
    fs_glob (filesystem w) (directory request) (pattern request) = Return matched ∧
    Forall2 (listed w) matched items ∧
    d = listing (directory request) (pattern request) (omap id items).
Proof.
  intros Hout Hok.
  destruct (list_files_cases w request)
    as [(_ & Heq)|[(_ & _ & Heq)|
        [(Hex & Hdir & matched & files & Hglob & Hloop & Heq)|(e & _ & Heq)]]].
  - rewrite Heq in Hout. injection Hout as <-. discriminate Hok.
  - rewrite Heq in Hout. injection Hout as <-. discriminate Hok.
  - rewrite Heq in Hout. injection Hout as <-.
    destruct (list_files_loop_listed _ _ _ _ Hloop) as (items & Hitems & ->).
    exists matched, items. repeat (split; [assumption|]). reflexivity.
  - rewrite Heq in Hout. injection Hout as <-. discriminate Hok.
Qed.

(** C10. In a successful listing, count is the length of the files list, and
    a glob match that is neither a regular file nor a directory has no entry
    in that list: no entry carries its path, and the list is then strictly
    shorter than the sequence of matches. *)
Theorem list_files_omits_other_matches
    (w : World) (request : FileListRequest) (d : gmap string pyval) :
  outcome (list_files w request) = Return d →
  has_key "error" d = false →
  ∃ matched files,
    fs_glob (filesystem w) (directory request) (pattern request) = Return matched ∧
    d !! "files" = Some (PyList files) ∧
    d !! "count" = Some (PyInt (Z.of_nat (length files))) ∧
    ∀ file_path,
      file_path ∈ matched →
      fs_is_file (filesystem w) file_path = Return false →
      fs_is_dir (filesystem w) file_path = Return false →
      (∀ props, PyDict props ∈ files → props !! "path" ≠ Some (PyStr file_path)) ∧
      (length files < length matched)%nat.
Proof.
  intros Hout Hok.
  destruct (list_files_success w request d Hout Hok)
    as (matched & items & _ & _ & Hglob & Hitems & ->).
  exists matched, (omap id items).
  split; [exact Hglob|]. split; [reflexivity|]. split; [reflexivity|].
  intros file_path Hin Hfile Hdir. split.
  - intros props Hentry Hpath.
    destruct (listed_entries_from_matches _ _ _ _ Hitems Hentry) as (p & _ & Hlisted).
    destruct (listed_entry_path _ _ _ Hlisted) as [Hp Hkind].
    rewrite Hp in Hpath. injection Hpath as ->.
    destruct Hkind; congruence.
  - rewrite (Forall2_length _ _ _ Hitems).
    apply omap_length_lt. eapply listed_neither_none; eassumption.
Qed.

Lemma example_glob :
  fs_glob (filesystem example_world) "/srv/data" "*"
  = Return ["/srv/data/report.txt"; "/srv/data/logs"; "/srv/data/current"].
Proof. exact eq_refl. Qed.

Lemma example_listing :
  outcome (list_files example_world example_request)
  = Return (listing "/srv/data" "*" example_files).
Proof. exact eq_refl. Qed.

Lemma example_listing_ok : has_key "error" (listing "/srv/data" "*" example_files) = false.
Proof. exact eq_refl. Qed.

Lemma list_files_omits_other_matches_witness :
  ∃ files,
    outcome (list_files example_world example_request)
    = Return (listing "/srv/data" "*" files) ∧
    (∀ props, PyDict props ∈ files → props !! "path" ≠ Some (PyStr "/srv/data/current")) ∧
    (length files < 3)%nat.
Proof.
  destruct (list_files_omits_other_matches example_world example_request
              (listing "/srv/data" "*" example_files) example_listing example_listing_ok)
    as (matched & files & Hglob & Hfiles & _ & Hom).
  change (directory example_request) with "/srv/data" in Hglob.
  change (pattern example_request) with "*" in Hglob.
  rewrite example_glob in Hglob. injection Hglob as <-.
  change (Some (PyList example_files) = Some (PyList files)) in Hfiles.
  injection Hfiles as <-.
  exists example_files. split; [exact example_listing|].
  apply (Hom "/srv/data/current"); [|exact eq_refl|exact eq_refl].
  right; right; left.
Defined.

(** ** The ISO-8601 shape of a formatted datetime *)

Lemma append_nil_l (s : string) : "" +:+ s = s.
Proof. reflexivity. Qed.

Lemma append_cons (c : ascii) (s t : string) : String c s +:+ t = String c (s +:+ t).
Proof. reflexivity. Qed.

Lemma append_nil_r (s : string) : s +:+ "" = s.
Proof. induction s as [|c s IH]; [reflexivity|]. rewrite append_cons, IH. reflexivity. Qed.

Lemma append_cons_r (s : string) (c : ascii) (t : string) :
  s +:+ String c t = (s +:+ String c "") +:+ t.
Proof.
  induction s as [|c' s IH]; [reflexivity|]. rewrite !append_cons, IH. reflexivity.
Qed.

Lemma matches_app (p1 p2 : list char_class) (s1 s2 : string) :
  matches p1 s1 = true → matches p2 s2 = true → matches (p1 ++ p2) (s1 +:+ s2) = true.
Proof.
  revert s1. induction p1 as [|cl p1 IH]; intros [|c s1];
    rewrite ?append_nil_l, ?append_cons; cbn; try discriminate.
  - intros _ H. exact H.
  - destruct cl; discriminate.
  - destruct cl as [|l]; intros H1 H2;
      apply andb_true_iff in H1 as [Hc H1]; rewrite Hc; cbn;
      apply IH; assumption.
Qed.

Lemma matches_length (p : list char_class) (s : string) :
  matches p s = true → String.length s = length p.
Proof.
  revert s. induction p as [|cl p IH]; intros [|c s]; cbn; try discriminate.
  - reflexivity.
  - destruct cl; discriminate.
  - destruct cl; intros H; apply andb_true_iff in H as [_ H]; f_equal; apply IH; exact H.
Qed.

Lemma is_digit_digit_char (d : Z) : 0 ≤ d < 10 → is_digit (digit_char d) = true.
Proof.
  intros Hd.
  assert (d = 0 ∨ d = 1 ∨ d = 2 ∨ d = 3 ∨ d = 4 ∨ d = 5 ∨ d = 6 ∨ d = 7 ∨ d = 8 ∨ d = 9)
    as Hcases by lia.
  repeat (destruct Hcases as [->|Hcases]; [reflexivity|]).
  subst d. reflexivity.
Qed.

Lemma matches_zeros (k : nat) : matches (replicate k Digit) (zeros k) = true.
Proof. induction k as [|k IH]; [reflexivity|]. cbn. exact IH. Qed.

Lemma matches_digits_snoc (j : nat) (ds : string) (d : Z) :
  0 ≤ d < 10 →
  matches (replicate j Digit) ds = true →
  matches (replicate (S j) Digit) (ds +:+ String (digit_char d) "") = true.
Proof.
  intros Hd Hds.
  replace (replicate (S j) Digit) with (replicate j Digit ++ [Digit])%list.
  - apply matches_app; [exact Hds|]. cbn. rewrite is_digit_digit_char by exact Hd. reflexivity.
  - clear. induction j as [|j IH]; [reflexivity|]. cbn. f_equal. exact IH.
Qed.

(** A number below [10 ^ k] prints as at most [k] digits. *)
Lemma decimal_aux_shape (fuel : nat) :
  ∀ (n : Z) (acc : string) (k : nat),
    (1 ≤ k)%nat → 0 ≤ n < 10 ^ Z.of_nat k →
    ∃ (ds : string) (j : nat),
      decimal_aux fuel n acc = ds +:+ acc ∧ (j ≤ k)%nat ∧
      matches (replicate j Digit) ds = true.
Proof.
  induction fuel as [|fuel IH]; intros n acc k Hk Hn; cbn [decimal_aux].
  - exists "", 0%nat. split; [reflexivity|]. split; [lia|reflexivity].
  - assert (0 ≤ n mod 10 < 10) as Hd by (apply Z.mod_pos_bound; lia).
    destruct (Z.eqb_spec (n / 10) 0) as [Hq|Hq].
    + exists (String (digit_char (n mod 10)) ""), 1%nat.
      split; [reflexivity|]. split; [exact Hk|].
      cbn. rewrite is_digit_digit_char by exact Hd. reflexivity.
    + destruct k as [|k]; [lia|].
      assert (10 ≤ n) as Hten.
      { destruct (Z_lt_le_dec n 10) as [Hlt|]; [|assumption].
        exfalso. apply Hq. apply Z.div_small. lia. }
      assert (1 ≤ k)%nat as Hk'.
      { destruct k as [|k]; [|lia]. cbn in Hn. lia. }
      assert (0 ≤ n / 10 < 10 ^ Z.of_nat k) as Hn'.
      { split; [apply Z.div_pos; lia|].
        apply Z.div_lt_upper_bound; [lia|].
        rewrite Nat2Z.inj_succ, Z.pow_succ_r in Hn by lia. lia. }
      destruct (IH (n / 10) (String (digit_char (n mod 10)) acc) k Hk' Hn')
        as (ds & j & Heq & Hj & Hds).
      exists (ds +:+ String (digit_char (n mod 10)) ""), (S j).
      split; [rewrite Heq; apply append_cons_r|].
      split; [lia|]. apply matches_digits_snoc; assumption.
Qed.

(** Within its width, [%0<width>d] prints exactly [width] digits. *)
Lemma format_d_digits (width : nat) (n : Z) :
  (1 ≤ width)%nat → 0 ≤ n < 10 ^ Z.of_nat width →
  matches (replicate width Digit) (format_d width n) = true.
Proof.
  intros Hw Hn. unfold format_d, decimal.
  destruct (Z.ltb_spec n 0) as [Hneg|_]; [lia|].
  destruct (decimal_aux_shape (S (Z.to_nat (Z.log2 n))) n "" width Hw Hn)
    as (ds & j & -> & Hj & Hds).
  rewrite append_nil_r, (matches_length _ _ Hds), length_replicate.
  replace (replicate width Digit)
    with (replicate (width - j) Digit ++ replicate j Digit)%list.
  - apply matches_app; [apply matches_zeros|exact Hds].
  - rewrite <- replicate_add. f_equal. lia.
Qed.

(** [isoformat] of a datetime object is an ISO-8601 date and time. *)
Lemma isoformat_is_iso8601 (dt : datetime) :
  valid_datetime dt → is_iso8601 (isoformat dt) = true.
Proof.
  intros (Hy & Hmo & Hd & Hh & Hmi & Hs & Hus).
  assert (matches (replicate 4 Digit) (format_d 4 (year dt)) = true) as Fy
    by (apply format_d_digits; cbn; lia).
  assert (matches (replicate 2 Digit) (format_d 2 (month dt)) = true) as Fmo
    by (apply format_d_digits; cbn; lia).
  assert (matches (replicate 2 Digit) (format_d 2 (day dt)) = true) as Fd
    by (apply format_d_digits; cbn; lia).
  assert (matches (replicate 2 Digit) (format_d 2 (hour dt)) = true) as Fh
    by (apply format_d_digits; cbn; lia).
  assert (matches (replicate 2 Digit) (format_d 2 (minute dt)) = true) as Fmi
    by (apply format_d_digits; cbn; lia).
  assert (matches (replicate 2 Digit) (format_d 2 (second dt)) = true) as Fs
    by (apply format_d_digits; cbn; lia).
  assert (matches (replicate 6 Digit) (format_d 6 (microsecond dt)) = true) as Fus
    by (apply format_d_digits; cbn; lia).
  assert (∀ (tail : string) (ptail : list char_class),
            matches ptail tail = true →
            matches (iso_seconds ++ ptail)
              (format_d 4 (year dt) +:+ "-" +:+ format_d 2 (month dt) +:+ "-" +:+
               format_d 2 (day dt) +:+ "T" +:+ format_d 2 (hour dt) +:+ ":" +:+
               format_d 2 (minute dt) +:+ ":" +:+ format_d 2 (second dt) +:+ tail) = true)
    as Hshape.
  { intros tail ptail Htail.
    change (iso_seconds ++ ptail)%list
      with (replicate 4 Digit ++ [Lit "-"%char] ++ replicate 2 Digit ++ [Lit "-"%char] ++
            replicate 2 Digit ++ [Lit "T"%char] ++ replicate 2 Digit ++ [Lit ":"%char] ++
            replicate 2 Digit ++ [Lit ":"%char] ++ replicate 2 Digit ++ ptail)%list.
    repeat (apply matches_app; [first [assumption|reflexivity]|]).
    exact Htail. }
  unfold is_iso8601, isoformat.
  destruct (Z.eqb_spec (microsecond dt) 0) as [_|_].
  - apply orb_true_iff. left.
    rewrite <- (app_nil_r iso_seconds). apply Hshape. reflexivity.
  - apply orb_true_iff. right.
    apply Hshape. apply (matches_app [Lit "."%char] (replicate 6 Digit) "." _);
      [reflexivity|exact Fus].
Qed.

Example isoformat_examples :
  isoformat {| year := 2023; month := 11; day := 14;
               hour := 22; minute := 13; second := 20; microsecond := 0 |}
  = "2023-11-14T22:13:20" ∧
  isoformat {| year := 987; month := 1; day := 2;
               hour := 3; minute := 4; second := 5; microsecond := 678 |}
  = "0987-01-02T03:04:05.000678" ∧
  utc_time (Float.of_Z 1700000000)
  = Return {| year := 2023; month := 11; day := 14;
              hour := 22; minute := 13; second := 20; microsecond := 0 |} ∧
  Path_name "/srv/data/report.txt" = "report.txt".
Proof. repeat split; exact eq_refl. Qed.

(** ** What a successful listing holds *)

Lemma valid_datetimeb_spec (dt : datetime) :
  valid_datetimeb dt = true → valid_datetime dt.
Proof.
  unfold valid_datetimeb, valid_datetime.
  rewrite !andb_true_iff, !Z.leb_le. tauto.
Qed.

Lemma utc_of_microseconds_valid (us : Z) (dt : datetime) :
  utc_of_microseconds us = Return dt → valid_datetime dt.
Proof.
  unfold utc_of_microseconds.
  destruct (civil_from_days _) as [[y m] d].
  destruct (valid_datetimeb _) eqn:Hv; [|discriminate].
  intros [= <-]. apply valid_datetimeb_spec. exact Hv.
Qed.

Lemma utc_time_valid (t : spec_float) (dt : datetime) :
  utc_time t = Return dt → valid_datetime dt.
Proof.
  destruct t as [s|s| |s m e]; cbn [utc_time].
  - apply utc_of_microseconds_valid.
  - intros [=].
  - intros [=].
  - apply utc_of_microseconds_valid.
Qed.

Lemma example_world_wf : wf_world example_world.
Proof.
  split.
  - unfold valid_datetime. cbn. lia.
  - intros t dt. apply utc_time_valid.
Qed.





(** ** The envelope of every tool *)

Lemma invoke_calculator (w : World) (request : CalculationRequest) :
  outcome (invoke w (Calculator request))
  = Return (Payload (calculate_contract (operation request) (a request) (b request))).
Proof.
  cbn [invoke]. rewrite outcome_fmap, calculator_refines_contract. reflexivity.
Qed.

Lemma invoke_list_files (w : World) (request : FileListRequest) (env : envelope) :
  outcome (invoke w (ListFiles request)) = Return env →
  ∃ d, env = Payload d ∧ outcome (list_files w request) = Return d.
Proof.
  cbn [invoke]. rewrite outcome_fmap.
  destruct (outcome (list_files w request)) as [d|e]; [|discriminate].
  intros [= <-]. exists d. split; reflexivity.
Qed.

Lemma list_files_returns (w : World) (request : FileListRequest) :
  ∃ d, outcome (list_files w request) = Return d.
Proof. apply try_except_returns. intros e. eexists. reflexivity. Qed.




(** ** No exception past the tool boundary *)

(** C1, as stated, fails: [system_info] has no handler, and in a process
    whose working directory has been removed the error of [os.getcwd()]
    leaves the tool. *)
Lemma system_info_raises_without_cwd :
  outcome (invoke world_without_cwd SystemInfo)
  = Raise (PyExn "FileNotFoundError" "[Errno 2] No such file or directory") ∧
  ¬ ∃ env, outcome (invoke world_without_cwd SystemInfo) = Return env.
Proof.
  split; [exact eq_refl|]. intros [env Henv]. discriminate Henv.
Qed.

(** C1, as amended.  [calculator], [list_files] and [echo] return an envelope
    in every world and on every input, and so does [system_info] whenever
    the working directory can be read; an exception raised inside the [try]
    block of [list_files] comes back as the error payload with its message,
    the directory and the pattern. *)
Theorem tools_return_an_envelope (w : World) (c : tool_call) :
  (c = SystemInfo → ∃ cwd, os_getcwd (environment w) = Return cwd) →
  ∃ env,
    outcome (invoke w c) = Return env ∧
    match c with
    | ListFiles request =>
        ∀ e, outcome (list_files_try w request) = Raise e →
             env = Payload (listing_failure (directory request) (pattern request) e)
    | _ => True
    end.
Proof.
  intros Hcwd. destruct c as [request|request| |message].
  - eexists. split; [apply invoke_calculator|exact I].
  - destruct (list_files_returns w request) as [d Hd].
    exists (Payload d). split.
    + cbn [invoke]. rewrite outcome_fmap, Hd. reflexivity.
    + intros e He. revert Hd. unfold list_files, try_except. rewrite He.
      intros [= <-]. reflexivity.
  - destruct (Hcwd eq_refl) as [cwd Hc].
    eexists. split; [|exact I].
    cbn [invoke]. rewrite outcome_fmap, system_info_outcome, Hc. reflexivity.
  - eexists. split; [reflexivity|exact I].
Qed.

Lemma tools_return_an_envelope_witness :
  ∃ env, outcome (invoke example_world SystemInfo) = Return env.
Proof.
  destruct (tools_return_an_envelope example_world SystemInfo) as (env & Henv & _).
  - intros _. exists "/srv". reflexivity.
  - exists env. exact Henv.
Defined.

(** ** What an Error payload echoes *)

(** C4, as stated, fails: the error for an unknown operation carries neither
    the operation field nor the operands, and the errors for a missing path
    and for a path that is not a directory do not carry the pattern. *)
Lemma error_payloads_drop_inputs :
  (let c := Calculator {| operation := "mod"; a := Float.of_Z 1; b := Float.of_Z 2 |} in
   let d := dict [("error", PyStr "Unknown operation: mod");
                  ("supported_operations",
                   PyList [PyStr "add"; PyStr "subtract"; PyStr "multiply"; PyStr "divide"])] in
   outcome (invoke example_world c) = Return (Payload d) ∧
   is_error (Payload d) = true ∧ ¬ echoes_inputs c d) ∧
  (let c := ListFiles {| directory := "/nonexistent"; pattern := "*.txt" |} in
   let d := dict [("error", PyStr "Directory does not exist: /nonexistent");
                  ("directory", PyStr "/nonexistent")] in
   outcome (invoke example_world c) = Return (Payload d) ∧
   is_error (Payload d) = true ∧ ¬ echoes_inputs c d) ∧
  (let c := ListFiles {| directory := "/srv/notes.txt"; pattern := "*.txt" |} in
   let d := dict [("error", PyStr "Path is not a directory: /srv/notes.txt");
                  ("directory", PyStr "/srv/notes.txt")] in
   outcome (invoke example_world c) = Return (Payload d) ∧
   is_error (Payload d) = true ∧ ¬ echoes_inputs c d).
Proof.
  split; [|split]; cbv zeta; (split; [exact eq_refl|]); (split; [exact eq_refl|]).
  - intros [Hop _]. discriminate Hop.
  - intros [_ Hpat]. discriminate Hpat.
  - intros [_ Hpat]. discriminate Hpat.
Qed.

(** C4, as amended.  Every Error payload carries a message.  The error of
    [calculator] for a division by zero echoes the operation and both
    operands; its error for an unknown operation carries the operation only
    inside the message, with the list of supported operations.  Every error
    of [list_files] echoes the directory; the pattern is echoed when the
    error reports a caught exception, and not when the path is missing or is
    not a directory.  [system_info] and [echo] return no Error payload. *)
Theorem error_payloads_echo (w : World) (c : tool_call) (d : gmap string pyval) :
  outcome (invoke w c) = Return (Payload d) →
  has_key "error" d = true →
  (∃ message, d !! "error" = Some (PyStr message)) ∧
  match c with
  | Calculator request =>
      (operation request = "divide" ∧ echoes_inputs c d)
      ∨ ((operation request ∉ supported_operations) ∧
         d = dict [("error", PyStr ("Unknown operation: " +:+ operation request));
                   ("supported_operations", PyList (PyStr <$> supported_operations))])
  | ListFiles request =>
      d !! "directory" = Some (PyStr (directory request)) ∧
      ((d !! "pattern" = None ∧
        (d = missing_directory (directory request) ∨
         d = not_a_directory (directory request)))
       ∨ (echoes_inputs c d ∧
          ∃ e, outcome (list_files_try w request) = Raise e ∧
               d = listing_failure (directory request) (pattern request) e))
  | SystemInfo | Echo _ => False
  end.
Proof.
  destruct c as [request|request| |message].
  - rewrite invoke_calculator. intros [= <-].
    unfold calculate_contract, echoes_inputs, inputs_of.
    destruct (decide (operation request = "divide" ∧ _)) as [[Hop Hz]|_].
    + intros _. split; [eexists; exact eq_refl|].
      left. split; [exact Hop|]. split; exact eq_refl.
    + destruct (decide (operation request ∈ supported_operations)) as [_|Hno].
      * intros Herr. discriminate Herr.
      * intros _. split; [eexists; exact eq_refl|].
        right. split; [exact Hno|exact eq_refl].
  - intros Hinv. destruct (invoke_list_files _ _ _ Hinv) as (d' & [= <-] & Hout).
    destruct (list_files_cases w request)
      as [(_ & Heq)|[(_ & _ & Heq)|[(_ & _ & ms & files & _ & _ & Heq)|(e & He & Heq)]]];
      rewrite Heq in Hout; injection Hout as <-.
    + intros _. split; [eexists; exact eq_refl|]. split; [exact eq_refl|].
      left. split; [exact eq_refl|]. left. reflexivity.
    + intros _. split; [eexists; exact eq_refl|]. split; [exact eq_refl|].
      left. split; [exact eq_refl|]. right. reflexivity.
    + intros Herr. discriminate Herr.
    + intros _. split; [eexists; exact eq_refl|]. split; [exact eq_refl|].
      right. split; [split; exact eq_refl|]. exists e. split; [exact He|reflexivity].
  - cbn [invoke]. rewrite outcome_fmap.
    destruct (outcome (system_info w)); discriminate.
  - intros [= <-] Herr. discriminate Herr.
Qed.

Lemma error_payloads_echo_witness :
  ∃ message,
    missing_directory "/nonexistent" !! "error" = Some (PyStr message).
Proof.
  exact (proj1 (error_payloads_echo example_world
                  (ListFiles {| directory := "/nonexistent"; pattern := "*.txt" |})
                  (dict [("error", PyStr "Directory does not exist: /nonexistent");
                         ("directory", PyStr "/nonexistent")])
                  eq_refl eq_refl)).
Defined.

(** ** Determinism *)

(** [list_files] never looks at the clock. *)
Lemma list_files_loop_clock (fs : FileSystem) (env : Environment) (c1 c2 : datetime)
    (matched : list string) :
  ∀ files,
    list_files_loop {| filesystem := fs; environment := env; clock := c1 |} matched files
    = list_files_loop {| filesystem := fs; environment := env; clock := c2 |} matched files.
Proof.
  induction matched as [|file_path rest IH]; intros files; cbn [list_files_loop].
  - reflexivity.
  - unfold mbind, py_bind, Path_is_file, Path_is_dir, Path_stat, datetime_fromtimestamp, call.
    cbn [outcome trace filesystem environment].
    destruct (fs_is_file fs file_path) as [[|]|e]; [| |reflexivity].
    + destruct (fs_stat fs file_path) as [stat|e]; [|reflexivity].
      destruct (local_time env (st_mtime stat)) as [modified|e]; [|reflexivity].
      rewrite IH. reflexivity.
    + destruct (fs_is_dir fs file_path) as [[|]|e]; [| |reflexivity];
        rewrite IH; reflexivity.
Qed.

Lemma list_files_clock (fs : FileSystem) (env : Environment) (c1 c2 : datetime)
    (request : FileListRequest) :
  list_files {| filesystem := fs; environment := env; clock := c1 |} request
  = list_files {| filesystem := fs; environment := env; clock := c2 |} request.
Proof.
  unfold list_files. f_equal.
  unfold list_files_try, mbind, py_bind, Path_exists, Path_is_dir, Path_glob, call.
  cbn [outcome trace filesystem environment].
  destruct (fs_exists fs (directory request)) as [[|]|e]; cbn [negb]; [| |reflexivity].
  - destruct (fs_is_dir fs (directory request)) as [[|]|e]; cbn [negb]; [| |reflexivity].
    + destruct (fs_glob fs (directory request) (pattern request)) as [matched|e];
        [|reflexivity].
      rewrite (list_files_loop_clock fs env c1 c2 matched []). reflexivity.
    + reflexivity.
  - reflexivity.
Qed.

(** C9, as stated, fails: with the same file system and the same
    environment, [echo] called at two different times returns two different
    envelopes. *)
Lemma echo_depends_on_clock :
  same_surroundings example_world example_world_later ∧
  outcome (invoke example_world (Echo "hi"))
  ≠ outcome (invoke example_world_later (Echo "hi")).
Proof.
  split; [split; reflexivity|].
  intros Heq.
  pose (stamp := λ r : result envelope,
          match r with Return (Payload d) => d !! "timestamp" | _ => None end).
  assert (stamp (outcome (invoke example_world (Echo "hi")))
          = Some (PyStr "2024-05-17T09:30:00.250000")) as Hnow by exact eq_refl.
  assert (stamp (outcome (invoke example_world_later (Echo "hi")))
          = Some (PyStr "2024-05-17T09:30:01.250000")) as Hlater by exact eq_refl.
  rewrite Heq, Hlater in Hnow. discriminate Hnow.
Qed.

(** C9, as amended.  With the same file system and the same environment, a
    tool called twice on equal inputs returns envelopes that are equal apart
    from the timestamp field; [calculator] and [list_files], which have no
    such field, return equal envelopes after the same calls to the outside;
    and every tool does when the clock reads the same as well. *)
Theorem tools_deterministic_up_to_timestamp (w1 w2 : World) (c : tool_call) :
  same_surroundings w1 w2 →
  without_timestamp <$> invoke w1 c = without_timestamp <$> invoke w2 c ∧
  match c with
  | Calculator _ | ListFiles _ => invoke w1 c = invoke w2 c
  | SystemInfo | Echo _ => clock w1 = clock w2 → invoke w1 c = invoke w2 c
  end.
Proof.
  destruct w1 as [fs1 env1 c1], w2 as [fs2 env2 c2].
  intros [Hfs Henv]. cbn in Hfs, Henv. subst fs2 env2.
  destruct c as [request|request| |message]; cbn [invoke].
  - split; reflexivity.
  - rewrite (list_files_clock fs1 env1 c1 c2). split; reflexivity.
  - split.
    + unfold system_info, environ, datetime_now, getcwd, call, fmap, py_fmap, mbind, py_bind.
      cbn [outcome trace environment clock].
      destruct (os_getcwd env1); reflexivity.
    + cbn [clock]. intros ->. reflexivity.
  - split.
    + exact eq_refl.
    + cbn [clock]. intros ->. reflexivity.
Qed.

Lemma tools_deterministic_up_to_timestamp_witness :
  without_timestamp <$> invoke example_world (Echo "hi")
  = without_timestamp <$> invoke example_world_later (Echo "hi").
Proof.
  exact (proj1 (tools_deterministic_up_to_timestamp example_world example_world_later
                  (Echo "hi") (conj eq_refl eq_refl))).
Defined.

(** * Further properties of the tools *)

(** ** calculator *)

Lemma float_eqb_zero (y : spec_float) : Float.eqb y (Float.of_Z 0) = float_is_zero y.
Proof. destruct y as [s|s| |s m e]; try reflexivity; destruct s; reflexivity. Qed.

(** X1. [calculator] returns an Error payload exactly when the operation is
    not one of the four supported names, or is "divide" with a divisor that
    is one of the two zeros; a NaN or infinite divisor, and every overflow,
    end in a Success payload. *)
Theorem calculator_error_iff (request : CalculationRequest) (d : gmap string pyval) :
  outcome (calculator request) = Return d →
  has_key "error" d = true ↔
  operation request ∉ supported_operations ∨
  (operation request = "divide" ∧ float_is_zero (b request) = true).
Proof.
  rewrite calculator_refines_contract. intros [= <-].
  unfold calculate_contract. rewrite float_eqb_zero.
  destruct (decide (operation request = "divide" ∧ _)) as [Hdz|Hndz].
  - split; [intros _; right; exact Hdz|intros _; exact eq_refl].
  - destruct (decide (operation request ∈ supported_operations)) as [Hin|Hno].
    + split; [intros Herr; discriminate Herr|].
      intros [Hno|Hdz]; [destruct (Hno Hin)|destruct (Hndz Hdz)].
    + split; [intros _; left; exact Hno|intros _; exact eq_refl].
Qed.

Lemma calculator_error_iff_witness :
  has_key "error"
    (dict [("result", PyFloat S754_nan); ("operation", PyStr "divide");
           ("inputs", PyDict (dict [("a", PyFloat (Float.of_Z 1));
                                    ("b", PyFloat S754_nan)]))]) = true ↔
  "divide" ∉ supported_operations ∨ ("divide" = "divide" ∧ float_is_zero S754_nan = true).
Proof.
  exact (calculator_error_iff
           {| operation := "divide"; a := Float.of_Z 1; b := S754_nan |} _ eq_refl).
Defined.

(** X2. The [try] block of [calculator] cannot fail, so the [except] branch
    never runs: whatever the request, the payload is the one the [try] block
    returns and no "Calculation error: ..." message is ever produced. *)
Theorem calculator_handler_unreachable (request : CalculationRequest) :
  ∃ d, calculator_try request = mret d ∧
       calculator request = mret d ∧
       ∀ detail, d !! "error" ≠ Some (PyStr ("Calculation error: " +:+ detail)).
Proof.
  exists (calculate_contract (operation request) (a request) (b request)).
  split; [rewrite <- calculator_is_try; apply calculator_refines_contract|].
  split; [apply calculator_refines_contract|].
  intros detail. unfold calculate_contract.
  destruct (decide (operation request = "divide" ∧ _)) as [_|_].
  - intros [=].
  - destruct (decide (operation request ∈ supported_operations)) as [_|_].
    + intros Heq. discriminate Heq.
    + intros [=].
Qed.

Lemma float_add_comm (x y : spec_float) : Float.add x y = Float.add y x.
Proof.
  destruct x as [sx|sx| |sx mx ex], y as [sy|sy| |sy my ey];
    try reflexivity; try (destruct sx, sy; reflexivity).
  unfold Float.add, SFadd. rewrite (Z.min_comm ex ey). f_equal. apply Z.add_comm.
Qed.

Lemma float_mul_comm (x y : spec_float) : Float.mul x y = Float.mul y x.
Proof.
  destruct x as [sx|sx| |sx mx ex], y as [sy|sy| |sy my ey];
    try reflexivity; try (destruct sx, sy; reflexivity).
  unfold Float.mul, SFmul.
  rewrite (xorb_comm sx sy), (Pos.mul_comm mx my), (Z.add_comm ex ey). reflexivity.
Qed.

(** X3. Addition and multiplication do not depend on the order of the
    operands: swapping a and b in an "add" or a "multiply" request gives a
    Success payload with the same result. *)
Theorem calculator_commutative (op : string) (x y : spec_float) :
  op = "add" ∨ op = "multiply" →
  is_Some (result_of (calculator {| operation := op; a := x; b := y |})) ∧
  result_of (calculator {| operation := op; a := x; b := y |})
  = result_of (calculator {| operation := op; a := y; b := x |}).
Proof.
  unfold result_of. rewrite !calculator_refines_contract. cbn [outcome mret py_ret].
  intros [->| ->].
  - split; [eexists; exact eq_refl|].
    change (Some (PyFloat (Float.add x y)) = Some (PyFloat (Float.add y x))).
    rewrite float_add_comm. reflexivity.
  - split; [eexists; exact eq_refl|].
    change (Some (PyFloat (Float.mul x y)) = Some (PyFloat (Float.mul y x))).
    rewrite float_mul_comm. reflexivity.
Qed.

Lemma calculator_commutative_witness :
  result_of (calculator {| operation := "multiply"; a := Float.of_Z 6; b := Float.of_Z 7 |})
  = result_of (calculator {| operation := "multiply"; a := Float.of_Z 7; b := Float.of_Z 6 |}).
Proof.
  exact (proj2 (calculator_commutative "multiply" (Float.of_Z 6) (Float.of_Z 7)
                  (or_intror eq_refl))).
Defined.

(** ** list_files: the calls it makes *)

Lemma loop_call_cons (w : World) (p : string) (matched : list string) (c : syscall) :
  loop_call w matched c → loop_call w (p :: matched) c.
Proof.
  intros Hc. destruct Hc as [q Hq|q Hq Hf|q Hq Hf|q stat Hq Hf Hs].
  - apply loop_is_file. right. exact Hq.
  - apply loop_is_dir; [right; exact Hq|exact Hf].
  - apply loop_stat; [right; exact Hq|exact Hf].
  - eapply loop_time; [right; exact Hq|exact Hf|exact Hs].
Qed.

Lemma list_files_loop_trace (w : World) (matched : list string) :
  ∀ files, Forall (loop_call w matched) (trace (list_files_loop w matched files)).
Proof.
  induction matched as [|p rest IH]; intros files; cbn [list_files_loop].
  - constructor.
  - assert (∀ files', Forall (loop_call w (p :: rest))
                        (trace (list_files_loop w rest files'))) as IH'.
    { intros files'. eapply Forall_impl; [apply IH|]. intros c. apply loop_call_cons. }
    rewrite trace_bind. unfold Path_is_file at 1 2. cbn [call outcome trace].
    destruct (fs_is_file (filesystem w) p) as [[|]|e] eqn:Hfile.
    + constructor; [apply loop_is_file; left|].
      rewrite trace_bind. unfold Path_stat at 1 2. cbn [call outcome trace].
      destruct (fs_stat (filesystem w) p) as [stat|e] eqn:Hstat.
      * constructor; [apply loop_stat; [left|exact Hfile]|].
        rewrite trace_bind. unfold datetime_fromtimestamp at 1 2. cbn [call outcome trace].
        assert (loop_call w (p :: rest) (SysFromTimestamp (st_mtime stat))) as Htime
          by (eapply loop_time; [left|exact Hfile|exact Hstat]).
        destruct (local_time (environment w) (st_mtime stat)) as [modified|e].
        -- constructor; [exact Htime|apply IH'].
        -- constructor; [exact Htime|constructor].
      * constructor; [apply loop_stat; [left|exact Hfile]|constructor].
    + constructor; [apply loop_is_file; left|].
      rewrite trace_bind. unfold Path_is_dir at 1 2. cbn [call outcome trace].
      assert (loop_call w (p :: rest) (SysIsDir p)) as Hdir
        by (apply loop_is_dir; [left|exact Hfile]).
      destruct (fs_is_dir (filesystem w) p) as [[|]|e].
      * constructor; [exact Hdir|apply IH'].
      * constructor; [exact Hdir|apply IH'].
      * constructor; [exact Hdir|constructor].
    + constructor; [apply loop_is_file; left|constructor].
Qed.

(** The calls of [list_files], in order. *)
Lemma list_files_trace (w : World) (request : FileListRequest) :
  let dir := directory request in
  let pat := pattern request in
  trace (list_files w request) =
  SysExists dir ::
    match fs_exists (filesystem w) dir with
    | Return true =>
        SysIsDir dir ::
          match fs_is_dir (filesystem w) dir with
          | Return true =>
              SysGlob dir pat ::
                match fs_glob (filesystem w) dir pat with
                | Return matched => trace (list_files_loop w matched [])
                | Raise _ => []
                end
          | _ => []
          end
    | _ => []
    end.
Proof.
  intros dir pat.
  assert (trace (list_files w request) = trace (list_files_try w request)) as ->.
  { unfold list_files, try_except.
    destruct (outcome (list_files_try w request)); [reflexivity|].
    cbn [trace mret py_ret]. apply app_nil_r. }
  unfold list_files_try. fold dir pat.
  rewrite trace_bind. unfold Path_exists at 1 2. cbn [call outcome trace].
  destruct (fs_exists (filesystem w) dir) as [[|]|e]; cbn [negb app]; [| reflexivity..].
  f_equal. rewrite trace_bind. unfold Path_is_dir at 1 2. cbn [call outcome trace].
  destruct (fs_is_dir (filesystem w) dir) as [[|]|e]; cbn [negb app]; [| reflexivity..].
  f_equal. rewrite trace_bind. unfold Path_glob at 1 2. cbn [call outcome trace].
  destruct (fs_glob (filesystem w) dir pat) as [matched|e]; cbn [app]; [|reflexivity].
  f_equal. rewrite trace_bind.
  destruct (outcome (list_files_loop w matched [])); [|reflexivity].
  cbn [trace mret py_ret]. apply app_nil_r.
Qed.


Lemma example_trace :
  trace (list_files example_world example_request)
  = [SysExists "/srv/data"; SysIsDir "/srv/data"; SysGlob "/srv/data" "*";
     SysIsFile "/srv/data/report.txt"; SysStat "/srv/data/report.txt";
     SysFromTimestamp (Float.of_Z 1700000000);
     SysIsFile "/srv/data/logs"; SysIsDir "/srv/data/logs";
     SysIsFile "/srv/data/current"; SysIsDir "/srv/data/current"].
Proof. exact eq_refl. Qed.


(** X5. [list_files] calls [glob] only on the requested directory with the
    requested pattern, and only after [exists] and [is_dir] have both
    answered yes for that directory. *)
Theorem list_files_globs_only_checked_directory
    (w : World) (request : FileListRequest) (dir pat : string) :
  SysGlob dir pat ∈ trace (list_files w request) →
  dir = directory request ∧ pat = pattern request ∧
  fs_exists (filesystem w) dir = Return true ∧
  fs_is_dir (filesystem w) dir = Return true.
Proof.
  rewrite list_files_trace. cbv zeta.
  rewrite elem_of_cons. intros [[=]|Hin]. revert Hin.
  destruct (fs_exists (filesystem w) (directory request)) as [[|]|e] eqn:Hex;
    [|intros Hin; apply elem_of_nil in Hin; destruct Hin..].
  rewrite elem_of_cons. intros [[=]|Hin]. revert Hin.
  destruct (fs_is_dir (filesystem w) (directory request)) as [[|]|e] eqn:Hdir;
    [|intros Hin; apply elem_of_nil in Hin; destruct Hin..].
  rewrite elem_of_cons. intros [[= -> ->]|Hin].
  - split; [reflexivity|]. split; [reflexivity|]. split; [exact Hex|exact Hdir].
  - exfalso. revert Hin.
    destruct (fs_glob (filesystem w) (directory request) (pattern request))
      as [matched|e]; [|intros Hin; apply elem_of_nil in Hin; destruct Hin].
    intros Hin.
    pose proof (list_files_loop_trace w matched []) as Hcalls.
    rewrite Forall_forall in Hcalls. specialize (Hcalls _ Hin).
    inversion Hcalls.
Qed.

Lemma list_files_globs_only_checked_directory_witness :
  fs_exists (filesystem example_world) "/srv/data" = Return true ∧
  fs_is_dir (filesystem example_world) "/srv/data" = Return true.
Proof.
  refine (proj2 (proj2 (list_files_globs_only_checked_directory example_world
                          example_request "/srv/data" "*" _))).
  rewrite example_trace. do 2 right. left.
Defined.

(** ** list_files: failures and what is listed *)

Lemma listed_readable (w : World) (p : string) (item : option pyval) :
  listed w p item → ¬ unreadable w p.
Proof.
  intros Hlisted Hun.
  destruct Hlisted as [stat modified Hfile Hstat Htime|Hfile Hdir|Hfile Hdir];
    destruct Hun as [[e He]|[[Hf [e He]]|[[Hf (st & e & Hs & He)]|[Hf [e He]]]]];
    congruence.
Qed.

Lemma Forall2_listed_elem (w : World) (matched : list string)
    (items : list (option pyval)) (p : string) :
  Forall2 (listed w) matched items → p ∈ matched → ∃ item, listed w p item.
Proof.
  induction 1 as [|q item matched items Hitem _ IH].
  - intros Hin. apply elem_of_nil in Hin. destruct Hin.
  - rewrite elem_of_cons. intros [->|Hin]; [exists item; exact Hitem|exact (IH Hin)].
Qed.

(** X6. The listing is all or nothing: when one of the glob matches cannot
    be inspected (its [is_file], [stat], time conversion or [is_dir] raises),
    [list_files] returns an Error payload without any files, whatever the
    other matches are. *)
Theorem list_files_all_or_nothing
    (w : World) (request : FileListRequest) (matched : list string) (p : string) :
  fs_glob (filesystem w) (directory request) (pattern request) = Return matched →
  p ∈ matched →
  unreadable w p →
  ∃ d, outcome (list_files w request) = Return d ∧
       has_key "error" d = true ∧ d !! "files" = None.
Proof.
  intros Hglob Hin Hun.
  destruct (list_files_cases w request)
    as [(_ & Heq)|[(_ & _ & Heq)|
        [(_ & _ & matched' & files & Hglob' & Hloop & _)|(e & _ & Heq)]]].
  - rewrite Heq. eexists. split; [reflexivity|]. split; exact eq_refl.
  - rewrite Heq. eexists. split; [reflexivity|]. split; exact eq_refl.
  - exfalso. rewrite Hglob in Hglob'. injection Hglob' as <-.
    destruct (list_files_loop_listed _ _ _ _ Hloop) as (items & Hitems & _).
    destruct (Forall2_listed_elem _ _ _ _ Hitems Hin) as [item Hitem].
    exact (listed_readable _ _ _ Hitem Hun).
  - rewrite Heq. eexists. split; [reflexivity|]. split; exact eq_refl.
Qed.

Lemma list_files_all_or_nothing_witness :
  ∃ d, outcome (list_files odd_world {| directory := "/srv/odd"; pattern := "*" |})
       = Return d ∧
       has_key "error" d = true ∧ d !! "files" = None.
Proof.
  apply (list_files_all_or_nothing odd_world {| directory := "/srv/odd"; pattern := "*" |}
           ["/srv/odd/a.txt"; "/srv/odd/future.bin"; "/srv/odd/z.txt"]
           "/srv/odd/future.bin").
  - exact eq_refl.
  - right. left.
  - right. right. left. split; [exact eq_refl|].
    exists {| st_size := 7; st_mtime := Float.of_Z 1000000000000000 |},
           (PyExn "ValueError" "year 31690708 is out of range").
    split; exact eq_refl.
Defined.



Lemma listed_paths (w : World) (matched : list string) (items : list (option pyval)) :
  Forall2 (listed w) matched items →
  entry_path <$> omap id items = Some <$> List.filter (listable w) matched.
Proof.
  induction 1 as [|p item matched items Hitem _ IH]; [reflexivity|].
  assert (listable w p = match item with Some _ => true | None => false end) as Hp.
  { unfold listable.
    destruct Hitem as [stat modified Hfile Hstat Htime|Hfile Hdir|Hfile Hdir];
      rewrite Hfile; try rewrite Hdir; reflexivity. }
  cbn [List.filter]. rewrite Hp.
  destruct Hitem as [stat modified Hfile Hstat Htime|Hfile Hdir|Hfile Hdir].
  - change (Some <$> p :: List.filter (listable w) matched)
      with (Some p :: (Some <$> List.filter (listable w) matched)).
    rewrite <- IH. exact eq_refl.
  - change (Some <$> p :: List.filter (listable w) matched)
      with (Some p :: (Some <$> List.filter (listable w) matched)).
    rewrite <- IH. exact eq_refl.
  - exact IH.
Qed.

(** X8. In a successful listing the paths of the entries are exactly the
    glob matches that are regular files or directories, in the order of the
    glob and with repetitions kept; count is their number. *)
Theorem list_files_paths_in_glob_order
    (w : World) (request : FileListRequest) (d : gmap string pyval) :
  outcome (list_files w request) = Return d →
  has_key "error" d = false →
  ∃ matched files,
    fs_glob (filesystem w) (directory request) (pattern request) = Return matched ∧
    d !! "files" = Some (PyList files) ∧
    entry_path <$> files = Some <$> List.filter (listable w) matched ∧
    d !! "count"
    = Some (PyInt (Z.of_nat (length (List.filter (listable w) matched)))).
Proof.
  intros Hout Hok.
  destruct (list_files_success w request d Hout Hok)
    as (matched & items & _ & _ & Hglob & Hitems & ->).
  pose proof (listed_paths w matched items Hitems) as Hpaths.
  exists matched, (omap id items).
  split; [exact Hglob|]. split; [reflexivity|]. split; [exact Hpaths|].
  apply (f_equal length) in Hpaths. rewrite !length_fmap in Hpaths.
  rewrite <- Hpaths. reflexivity.
Qed.

Lemma list_files_paths_in_glob_order_witness :
  entry_path <$> example_files = [Some "/srv/data/report.txt"; Some "/srv/data/logs"].
Proof.
  destruct (list_files_paths_in_glob_order example_world example_request
              (listing "/srv/data" "*" example_files) example_listing example_listing_ok)
    as (matched & files & Hglob & Hfiles & Hpaths & _).
  change (directory example_request) with "/srv/data" in Hglob.
  change (pattern example_request) with "*" in Hglob.
  rewrite example_glob in Hglob. injection Hglob as <-.
  change (Some (PyList example_files) = Some (PyList files)) in Hfiles.
  injection Hfiles as <-.
  exact Hpaths.
Defined.

(** ** list_files: names and paths *)







(** ** system_info and the timestamps *)

(** X10. The environment_variables field of a [system_info] result holds a
    variable with a value exactly when the variable is one of the six
    allow-listed names and is set to that value in the process environment:
    no allow-listed variable that is set is left out, and none that is unset
    is invented. *)
Theorem system_info_env_complete (w : World) (r : SystemInfoResponse) :
  outcome (system_info w) = Return r →
  ∀ k v,
    environment_variables r !! k = Some v ↔
    k ∈ safe_vars ∧ os_environ (environment w) !! k = Some v.
Proof.
  rewrite system_info_outcome.
  destruct (os_getcwd (environment w)) as [cwd|e]; [|discriminate].
  intros [= <-] k v. cbn [environment_variables].
  rewrite collect_env_vars_lookup.
  destruct (decide (k ∈ safe_vars)) as [Hin|Hno].
  - split; [intros Hk; split; assumption|intros [_ Hk]; exact Hk].
  - split; [discriminate|intros [Hin _]; destruct (Hno Hin)].
Qed.

Lemma system_info_env_complete_witness :
  ∃ r, outcome (system_info example_world) = Return r ∧
       environment_variables r !! "LANG" = Some "C.UTF-8" ∧
       environment_variables r !! "USER" = None.
Proof.
  eexists. split; [exact eq_refl|].
  pose proof (system_info_env_complete example_world _ eq_refl) as Hiff.
  split.
  - apply Hiff. split; [|exact eq_refl]. unfold safe_vars. do 4 right. left.
  - exact eq_refl.
Defined.


(** X12. In a world whose clock gives datetime objects, the timestamp of
    every [echo] payload and of every [system_info] result is an ISO-8601
    date and time: [YYYY-MM-DDThh:mm:ss], followed by a six-digit fraction
    when the microseconds are not zero. *)
Theorem timestamps_are_iso8601 (w : World) :
  wf_world w →
  (∀ message, ∃ d stamp,
      outcome (echo w message) = Return d ∧
      d !! "timestamp" = Some (PyStr stamp) ∧ is_iso8601 stamp = true) ∧
  (∀ r, outcome (system_info w) = Return r → is_iso8601 (timestamp r) = true).
Proof.
  intros [Hclock _]. split.
  - intros message. eexists. exists (isoformat (clock w)).
    split; [reflexivity|]. split; [exact eq_refl|].
    apply isoformat_is_iso8601. exact Hclock.
  - intros r. rewrite system_info_outcome.
    destruct (os_getcwd (environment w)); [|discriminate].
    intros [= <-]. apply isoformat_is_iso8601. exact Hclock.
Qed.

Lemma timestamps_are_iso8601_witness :
  ∃ d stamp,
    outcome (echo example_world "hi") = Return d ∧
    d !! "timestamp" = Some (PyStr stamp) ∧ is_iso8601 stamp = true.
Proof.
  exact (proj1 (timestamps_are_iso8601 example_world example_world_wf) "hi").
Defined.

(** ** main *)



(** ** What the results do not depend on *)

Lemma collect_env_vars_agree (env1 env2 : gmap string string) :
  (∀ k, k ∈ safe_vars → env1 !! k = env2 !! k) →
  collect_env_vars env1 = collect_env_vars env2.
Proof.
  intros Hagree. apply map_eq. intros k.
  rewrite !collect_env_vars_lookup.
  destruct (decide (k ∈ safe_vars)) as [Hin|_]; [exact (Hagree k Hin)|reflexivity].
Qed.

(** X14. The result of [system_info] depends on the process environment only
    through the six allow-listed variables: two worlds that agree on them
    (and on the working directory, the interpreter, the platform and the
    clock) give the same result, whatever their other variables hold. *)
Theorem system_info_ignores_other_variables (w1 w2 : World) :
  (∀ k, k ∈ safe_vars →
        os_environ (environment w1) !! k = os_environ (environment w2) !! k) →
  os_getcwd (environment w1) = os_getcwd (environment w2) →
  sys_version (environment w1) = sys_version (environment w2) →
  platform_platform (environment w1) = platform_platform (environment w2) →
  clock w1 = clock w2 →
  outcome (system_info w1) = outcome (system_info w2).
Proof.
  intros Hvars Hcwd Hversion Hplatform Hclock.
  rewrite !system_info_outcome.
  rewrite (collect_env_vars_agree _ _ Hvars), Hcwd, Hversion, Hplatform, Hclock.
  reflexivity.
Qed.

Lemma system_info_ignores_other_variables_witness :
  os_environ (environment example_world) !! "API_TOKEN"
  ≠ os_environ (environment example_world_rotated) !! "API_TOKEN" ∧
  outcome (system_info example_world) = outcome (system_info example_world_rotated).
Proof.
  split; [intros Heq; discriminate Heq|].
  apply system_info_ignores_other_variables; try reflexivity.
  intros k Hk. unfold safe_vars in Hk. set_unfold.
  destruct Hk as [->|[->|[->|[->|[->|[->|[]]]]]]]; exact eq_refl.
Defined.

(** X15. A pattern that matches nothing in an existing directory is not an
    error: [list_files] succeeds with an empty files list and count 0, after
    the three calls that probe the directory. *)
Theorem list_files_no_match (w : World) (request : FileListRequest) :
  fs_exists (filesystem w) (directory request) = Return true →
  fs_is_dir (filesystem w) (directory request) = Return true →
  fs_glob (filesystem w) (directory request) (pattern request) = Return [] →
  list_files w request
  = Run [SysExists (directory request); SysIsDir (directory request);
         SysGlob (directory request) (pattern request)]
      (Return (dict [("directory", PyStr (directory request));
                     ("pattern", PyStr (pattern request));
                     ("files", PyList []);
                     ("count", PyInt 0)])).
Proof.
  intros Hex Hdir Hglob.
  unfold list_files, try_except, list_files_try, mbind, py_bind,
    Path_exists, Path_is_dir, Path_glob, call.
  cbn [outcome trace]. rewrite Hex. cbn [negb outcome trace].
  rewrite Hdir. cbn [negb outcome trace]. rewrite Hglob. reflexivity.
Qed.

Lemma list_files_no_match_witness :
  outcome (list_files example_world {| directory := "/srv/data"; pattern := "*.md" |})
  = Return (dict [("directory", PyStr "/srv/data"); ("pattern", PyStr "*.md");
                  ("files", PyList []); ("count", PyInt 0)]).
Proof.
  exact (f_equal outcome
           (list_files_no_match example_world
              {| directory := "/srv/data"; pattern := "*.md" |}
              eq_refl eq_refl eq_refl)).
Defined.
